(** * Lana bot: quota, bounded history and storage fallback

    A shallow embedding of [lana_telegram_bot.py]: the two SQLite relations
    and the five statements run on them, the retry-once wrapper [_db_try]
    around every storage call, the construction of the prompt, and the two
    session loops (Telegram handlers and the local console).

    Conventions of the embedding.
    - A Python [str] is a [string] holding its UTF-8 encoding.
    - A Python [int] is a [Z]; a nullable column is an [option]. SQLite's
      INTEGER is 64 bits wide; the ids a transport hands out and the
      counters of a process stay inside that range, and values outside it
      are not modelled.
    - The relation [users] is keyed by its INTEGER PRIMARY KEY, hence a
      [gmap Z]; the relation [convo] is the list of its rows together with
      the AUTOINCREMENT counter SQLite keeps for it.
    - Code that raises returns a [Raise]; the globals, the database file,
      the calendar and the faults of the environment live in a [World]
      that every call threads. *)

From stdpp Require Import gmap strings list fin_maps relations sorting pretty.
From Stdlib Require Import ZArith Lia Sorted.

Local Open Scope Z_scope.

(** ** The persisted relations *)

(** [role TEXT CHECK(role IN ('user','assistant','system'))]; the program
    itself only ever writes the literals ["user"] and ["assistant"]. *)
Inductive Role : Set := RoleUser | RoleAssistant | RoleSystem.

#[global] Instance Role_eq_dec : EqDecision Role.
Proof. solve_decision. Defined.

Definition role_name (r : Role) : string :=
  match r with
  | RoleUser => "user"
  | RoleAssistant => "assistant"
  | RoleSystem => "system"
  end.

(** A row of [users] without its key. [messages_today INTEGER DEFAULT 0] and
    [last_reset DATE] are both nullable. *)
Record UserRow : Set := mkUserRow {
  username : option string;
  messages_today : option Z;
  last_reset : option string
}.

(** A row of [convo]. The column [ts] is written by its default and never
    read by the program, so it is left out. *)
Record ConvoRow : Set := mkConvoRow {
  id : Z;
  user_id : Z;
  role : Role;
  content : string
}.

(** [convo_seq] is the entry of [sqlite_sequence] for [convo]: the largest
    id AUTOINCREMENT has ever handed out. *)
Record Database : Type := mkDatabase {
  users : gmap Z UserRow;
  convo : list ConvoRow;
  convo_seq : Z
}.

(** What [CREATE TABLE IF NOT EXISTS] leaves in a file without tables. *)
Definition empty_db : Database := mkDatabase ∅ [] 0.

Definition set_users (u : gmap Z UserRow) (d : Database) : Database :=
  mkDatabase u (convo d) (convo_seq d).

Definition set_convo (c : list ConvoRow) (s : Z) (d : Database) : Database :=
  mkDatabase (users d) c s.

(** ** The SQL fragments *)

(** [WHERE user_id = ?] on [convo]. *)
Definition rows_of (uid : Z) (rows : list ConvoRow) : list ConvoRow :=
  filter (λ r, user_id r = uid) rows.

(** [ORDER BY id ASC], as an insertion sort on the key. *)
Fixpoint insert_by_id (r : ConvoRow) (rows : list ConvoRow) : list ConvoRow :=
  match rows with
  | [] => [r]
  | r' :: rest =>
      if decide (id r <= id r') then r :: r' :: rest
      else r' :: insert_by_id r rest
  end.

Fixpoint order_by_id_asc (rows : list ConvoRow) : list ConvoRow :=
  match rows with
  | [] => []
  | r :: rest => insert_by_id r (order_by_id_asc rest)
  end.

(** [ORDER BY id DESC]; ids are a primary key, so it is the reverse. *)
Definition order_by_id_desc (rows : list ConvoRow) : list ConvoRow :=
  reverse (order_by_id_asc rows).

(** [LIMIT -1 OFFSET n]: no limit, skip [n] rows; SQLite reads a negative
    offset as zero. The offset is bound as a parameter, which Python does
    for an SQLite INTEGER only, a signed 64-bit number ([sqlite_integer]
    below); outside that range the binding raises [OverflowError] before
    the statement runs, and this function does not say what the program
    does. *)
Definition limit_all_offset (n : Z) (rows : list ConvoRow) : list ConvoRow :=
  drop (Z.to_nat n) rows.

(** The largest id present, 0 for an empty table. *)
Definition max_id (rows : list ConvoRow) : Z :=
  foldr (λ r m, Z.max (id r) m) 0 rows.

(** The id AUTOINCREMENT gives the next row: one more than every id in the
    table and every id ever used. *)
Definition next_id (d : Database) : Z :=
  Z.max (convo_seq d) (max_id (convo d)) + 1.

(** ** The five statements, as the closures of the source run them *)

Section Statements.
Variable HISTORY_TURNS : Z.

(** [_get] of [get_user]: [SELECT], then [INSERT] for an unknown id or
    [UPDATE] for a row whose [last_reset] is NULL or not today. *)
Definition _get (uid : Z) (name : option string) (today : string)
    (d : Database) : (Z * option Z * option string) * Database :=
  match users d !! uid with
  | None =>
      ((uid, Some 0, Some today),
       set_users (<[uid := mkUserRow name (Some 0) (Some today)]> (users d)) d)
  | Some row =>
      if decide (last_reset row = Some today)
      then ((uid, messages_today row, last_reset row), d)
      else ((uid, Some 0, Some today),
            set_users (<[uid := mkUserRow (username row) (Some 0) (Some today)]>
                         (users d)) d)
  end.

(** [_inc] of [inc_user_counter]:
    [UPDATE users SET messages_today = COALESCE(messages_today,0) + 1]. *)
Definition bump (row : UserRow) : UserRow :=
  mkUserRow (username row) (Some (default 0 (messages_today row) + 1))
            (last_reset row).

Definition _inc (uid : Z) (d : Database) : unit * Database :=
  (tt, set_users (alter bump uid (users d)) d).

(** [_add] of [add_msg]: [INSERT], then [DELETE ... WHERE id IN (SELECT id
    ... ORDER BY id DESC LIMIT -1 OFFSET 2*HISTORY_TURNS)], for a
    [HISTORY_TURNS * 2] that is an [sqlite_integer]. *)
Definition trimmed_ids (uid : Z) (rows : list ConvoRow) : list Z :=
  id <$> limit_all_offset (HISTORY_TURNS * 2)
           (order_by_id_desc (rows_of uid rows)).

Definition _add (uid : Z) (r : Role) (text : string) (d : Database)
    : unit * Database :=
  let n := next_id d in
  let inserted := convo d ++ [mkConvoRow n uid r text] in
  let gone := trimmed_ids uid inserted in
  (tt, set_convo (filter (λ row, id row ∉ gone) inserted) n d).

(** [_hist] of [get_history]:
    [SELECT role, content ... WHERE user_id = ? ORDER BY id ASC]. *)
Definition _hist (uid : Z) (d : Database) : list (Role * string) * Database :=
  ((λ row, (role row, content row)) <$> order_by_id_asc (rows_of uid (convo d)), d).

(** [_do_reset] of the reset command: [DELETE FROM convo WHERE user_id = ?]. *)
Definition _do_reset (uid : Z) (d : Database) : unit * Database :=
  (tt, set_convo (filter (λ row, user_id row ≠ uid) (convo d)) (convo_seq d) d).

End Statements.

(** A table as SQLite stores it: rows in key order, keys distinct. *)
Definition id_lt (a b : ConvoRow) : Prop := id a < id b.

Definition wf_db (d : Database) : Prop := StronglySorted id_lt (convo d).


(** The last [n] elements of a list. *)
Definition lastn {A} (n : nat) (l : list A) : list A :=
  drop (length l - n)%nat l.


(** ** Exceptions, the world and the monad of the program *)

(** The exception classes the program tells apart. [OSError] stands for the
    class with its subclasses, [OperationalError] for
    [sqlite3.OperationalError]; every constructor is an [Exception]. What
    derives from [BaseException] only ([KeyboardInterrupt], [SystemExit],
    [asyncio.CancelledError]) is no [exn]: [except Exception] lets it
    through, and no call of this development raises it. *)
Inductive exn : Set :=
  | OSError
  | OperationalError
  | TypeError
  | AttributeError
  | OtherError (name : string).

(** The classes named by [except (OSError, sqlite3.OperationalError)]. *)
Definition io_class (e : exn) : bool :=
  match e with
  | OSError | OperationalError => true
  | _ => false
  end.

Inductive outcome (T : Type) : Type :=
  | Ok (v : T)
  | Raise (e : exn).
Arguments Ok {T} v.
Arguments Raise {T} e.

(** A record of the logger [log]: the format string and its argument. *)
Inductive LogRecord : Set :=
  | LogWarning (fmt : string) (arg : option exn)
  | LogException (fmt : string) (arg : exn).

(** The state a call can read or change.
    - [DB_DSN], [DB_URI]: the two module globals of the backend mode;
      [DB_URI = false] is the file-backed mode.
    - [file_db]: the tables of the file at [DB_PATH], [None] while the file
      holds no tables.
    - [today]: what [date.today().isoformat()] returns; a storage closure
      sees one date for the whole of its run.
    - [db_faults]: what the environment does to the next storage closures,
      one entry per run: [Some e] makes the run raise [e] and leave the
      file as it was, [None] lets it through.
    - [net_faults]: the same for the calls of [reply_text].
    - [outbox]: the texts delivered to the user, by [reply_text] or [print].
    - [log]: the records written to the logger. *)
Record World : Type := mkWorld {
  DB_DSN : string;
  DB_URI : bool;
  file_db : option Database;
  today : string;
  db_faults : list (option exn);
  net_faults : list (option exn);
  outbox : list string;
  log : list LogRecord
}.

Definition set_backend (dsn : string) (uri : bool) (w : World) : World :=
  mkWorld dsn uri (file_db w) (today w) (db_faults w) (net_faults w)
          (outbox w) (log w).

Definition set_file_db (d : option Database) (w : World) : World :=
  mkWorld (DB_DSN w) (DB_URI w) d (today w) (db_faults w) (net_faults w)
          (outbox w) (log w).

Definition set_db_faults (f : list (option exn)) (w : World) : World :=
  mkWorld (DB_DSN w) (DB_URI w) (file_db w) (today w) f (net_faults w)
          (outbox w) (log w).

Definition set_net_faults (f : list (option exn)) (w : World) : World :=
  mkWorld (DB_DSN w) (DB_URI w) (file_db w) (today w) (db_faults w) f
          (outbox w) (log w).

Definition deliver (text : string) (w : World) : World :=
  mkWorld (DB_DSN w) (DB_URI w) (file_db w) (today w) (db_faults w)
          (net_faults w) (outbox w ++ [text]) (log w).

Definition write_log (r : LogRecord) (w : World) : World :=
  mkWorld (DB_DSN w) (DB_URI w) (file_db w) (today w) (db_faults w)
          (net_faults w) (outbox w) (log w ++ [r]).

(** A call: it ends with a value or an exception, in a new world. *)
Definition M (T : Type) : Type := World → outcome T * World.

Definition ret {T} (v : T) : M T := λ w, (Ok v, w).

Definition raise {T} (e : exn) : M T := λ w, (Raise e, w).

Definition bind {T U} (m : M T) (k : T → M U) : M U := λ w,
  match m w with
  | (Ok v, w') => k v w'
  | (Raise e, w') => (Raise e, w')
  end.

(** [try: m except Exception as e: handler e]. *)
Definition try_except {T} (m : M T) (handler : exn → M T) : M T := λ w,
  match m w with
  | (Ok v, w') => (Ok v, w')
  | (Raise e, w') => handler e w'
  end.

#[global] Instance M_ret : MRet M := @ret.
#[global] Instance M_bind : MBind M := λ T U k m, bind m k.

(** ** Storage calls *)

(** [log.warning(...)] and the two assignments of [_switch_to_memory_db]. *)
Definition _switch_to_memory_db (w : World) : World :=
  write_log
    (LogWarning "Switching to shared in-memory SQLite (file I/O unavailable). Data persists until process exit." None)
    (set_backend "file:lana_memdb?mode=memory&cache=shared" true w).

(** One run of a storage closure: [con = db()], the statements,
    [con.commit(); con.close()]. The statements see the tables the
    connection opens, or [None] when it opens a database without tables.
    In memory mode the connection is the only one to the shared in-memory
    database, which SQLite creates empty on [connect] and deletes on
    [close]; in file mode it is the file. A run that raises leaves the file
    as it was. The file is the one [DB_DSN] names while [DB_URI] is off: a
    path on disk ([on_disk] below), as the default [lana.db]; the names
    [:memory:] and the empty one, which give every connection a database of
    its own, are not covered. *)
Definition transaction {T}
    (stmts : option Database → outcome T * option Database) : M T := λ w,
  match db_faults w with
  | Some e :: rest => (Raise e, set_db_faults rest w)
  | _ =>
      let w := set_db_faults (tail (db_faults w)) w in
      if DB_URI w then ((stmts None).1, w)
      else let '(r, d) := stmts (file_db w) in
           (r, set_file_db (match r with Ok _ => d | Raise _ => file_db w end) w)
  end.

(** Statements on the two tables: [no such table] without them. *)
Definition on_tables {T} (stmt : Database → T * Database)
    (od : option Database) : outcome T * option Database :=
  match od with
  | None => (Raise OperationalError, None)
  | Some d => let '(v, d') := stmt d in (Ok v, Some d')
  end.

(** The resilient executor of the source. *)
Definition _db_try {T} (fn : M T) : M T := λ w,
  match fn w with
  | (Ok v, w1) => (Ok v, w1)
  | (Raise e, w1) =>
      if io_class e then
        if negb (DB_URI w1) then
          fn (_switch_to_memory_db
                (write_log
                   (LogWarning "DB op failed (%s). Falling back to memory DB and retrying once." (Some e))
                   w1))
        else (Raise e, w1)
      else (Raise e, w1)
  end.

(** [_init]: both [CREATE TABLE IF NOT EXISTS]. [_ensure_parent_dir] only
    touches the file system and swallows its own errors. *)
Definition _init : M unit :=
  transaction (λ od, (Ok tt, Some (default empty_db od))).

Definition init_db : M unit := _db_try _init.

Section StorageCalls.
Variable HISTORY_TURNS : Z.

Definition get_user (uid : Z) (name : option string)
    : M (Z * option Z * option string) :=
  _db_try (λ w, transaction (on_tables (_get uid name (today w))) w).

Definition inc_user_counter (uid : Z) : M unit :=
  _db_try (transaction (on_tables (_inc uid))).

Definition add_msg (uid : Z) (r : Role) (text : string) : M unit :=
  _db_try (transaction (on_tables (_add HISTORY_TURNS uid r text))).

Definition get_history (uid : Z) : M (list (Role * string)) :=
  _db_try (transaction (on_tables (_hist uid))).

(** The reset closure of [_tg_reset] and of the console loops, wrapped. *)
Definition clear_history (uid : Z) : M unit :=
  _db_try (transaction (on_tables (_do_reset uid))).
End StorageCalls.


(** ** The conversation engine *)

(** An entry of the list handed to the provider: [{"role": .., "content": ..}]. *)
Record ChatMessage : Set := mkMessage {
  msg_role : string;
  msg_content : string
}.

#[global] Instance ChatMessage_eq_dec : EqDecision ChatMessage.
Proof. solve_decision. Defined.

(** What [chat.completions.create] followed by [resp.choices[0].message.content]
    comes to: the content, possibly [None], or an exception. *)
Inductive completion : Set :=
  | Completed (text : option string)
  | Failed (e : exn).

Definition SYSTEM_NAME : string := "Lana".

Definition SYSTEM_PROMPT : string :=
  "
You are " +:+ SYSTEM_NAME +:+ ", an AI girlfriend and supportive companion.
Core traits:
- Warm, playful, witty; flirty but tasteful (PG-13). No explicit sexual content.
- Emotionally intelligent: validate feelings, ask short follow-up questions.
- Concise by default (2–5 sentences), but expand if user asks.
- Mirror the user's language automatically (reply in the same language and register). If user mixes languages, choose the dominant language.
- Use light emoji occasionally if it fits the tone.
Boundaries & Safety:
- Refuse explicit sexual content, illegal, violent, self-harm, medical/financial/legal advice beyond general support; suggest safer alternatives.
- If asked NSFW content, gently decline and steer to romantic/wholesome topics.
Memory:
- If the user shares preferences (likes/dislikes, hobbies, birthdays), naturally remember them during the conversation.
Style:
- Address the user by name if available from platform context (e.g., Telegram username), otherwise use a friendly term.
".

(** The reply of [_openai_reply] when the call to the provider raises. *)
Definition provider_apology : string :=
  "У меня небольшой сбой с мозгами 🤯 Попробуешь ещё раз?".

(** The fixed head of the stub reply; the user's message follows it. *)
Definition stub_prefix : string :=
  "Я тут с тобой, милашка 💫

Ты написал(а): ".

(** The text [PAYWALL_HOOK] returns for every user. *)
Definition PAYWALL_HOOK (uid : Z) : string :=
  "Бесплатный лимит на сегодня исчерпан. ✨

Скоро тут появятся способы подписки: Telegram Stars / CryptoBot / Patreon / Gumroad.
Хочешь — напиши, какой способ удобнее, я подсуну разработчику 😉".

(** [if username:] on a [str | None]. *)
Definition truthy (name : option string) : bool :=
  match name with
  | Some n => bool_decide (n ≠ "")
  | None => false
  end.

Section Engine.
(** The configuration read from the environment at import. *)
Variable FREE_MESSAGES_PER_DAY : Z.
Variable HISTORY_TURNS : Z.
(** The OpenAI client: [None] unless the package is importable and
    [OPENAI_API_KEY] is set. *)
Variable provider : option (list ChatMessage → completion).
(** The builtin [str.strip]. *)
Variable str_strip : string → string.

Definition _openai_reply (messages : list ChatMessage) : M string :=
  match provider with
  | Some create =>
      match create messages with
      | Completed text => ret (str_strip (default "" text))
      | Failed e =>
          λ w, (Ok provider_apology,
                write_log (LogException "OpenAI error: %s" e) w)
      end
  | None =>
      let user_msg :=
        default "" (msg_content <$>
                      head (filter (λ m, msg_role m = "user") (reverse messages))) in
      ret (stub_prefix +:+ user_msg)
  end.

(** The list [generate_reply] builds, one [append] after the other. *)
Definition prompt_messages (history : list (Role * string))
    (user_text : string) (name : option string) : list ChatMessage :=
  let messages := [mkMessage "system" SYSTEM_PROMPT] in
  let messages :=
    if truthy name
    then messages ++
         [mkMessage "system"
            ("User telegram username is @" +:+ default "" name +:+ ".")]
    else messages in
  let messages :=
    foldl (λ acc turn, acc ++ [mkMessage (role_name turn.1) turn.2])
          messages history in
  messages ++ [mkMessage "user" user_text].

Definition generate_reply (uid : Z) (user_text : string)
    (name : option string) : M string :=
  history ← get_history uid;
  _openai_reply (prompt_messages history user_text name).

(** [used >= FREE_MESSAGES_PER_DAY]; a NULL counter comes back as [None]
    and the comparison raises. *)
Definition quota_used_up (used : option Z) : M bool :=
  match used with
  | Some n => ret (bool_decide (FREE_MESSAGES_PER_DAY ≤ n))
  | None => raise TypeError
  end.

(** ** The Telegram transport *)

Record TgUser : Set := mkTgUser {
  tg_id : Z;
  tg_username : option string
}.

Record TgMessage : Set := mkTgMessage {
  text : option string
}.

(** [update.effective_user] and [update.message] may both be [None]. *)
Record Update : Set := mkUpdate {
  effective_user : option TgUser;
  message : option TgMessage
}.

(** Reading an attribute of a value that may be [None]. *)
Definition attr {T} (o : option T) : M T :=
  match o with
  | Some v => ret v
  | None => raise AttributeError
  end.

(** A request to the Bot API: the network may fail. *)
Definition send_message (body : string) : M unit := λ w,
  match net_faults w with
  | Some e :: rest => (Raise e, set_net_faults rest w)
  | _ => (Ok tt, deliver body (set_net_faults (tail (net_faults w)) w))
  end.

(** [await update.message.reply_text(text)]. *)
Definition reply_text (upd : Update) (body : string) : M unit :=
  attr (message upd);; send_message body.

(** [print(...)] on the console. *)
Definition print (line : string) : M unit := λ w, (Ok tt, deliver line w).

Definition text_apology : string :=
  "Упс, у меня затык с базой/сетью. Напиши ещё раз чуть позже.".

Definition reset_ack : string :=
  "Я всё забыла про этот разговор. Начнём заново ✨".

Definition reset_apology : string :=
  "Хм, не смогла очистить историю из-за сбоя хранилища. Попробуем позже.".

(** The handler of plain text messages. *)
Definition _tg_text (upd : Update) : M unit :=
  try_except
    (user ← attr (effective_user upd);
     '(uid, used, _) ← get_user (tg_id user) (tg_username user);
     blocked ← quota_used_up used;
     if (blocked : bool) then reply_text upd (PAYWALL_HOOK uid)
     else
       msg ← attr (message upd);
       let user_text := str_strip (default "" (text msg)) in
       add_msg HISTORY_TURNS uid RoleUser user_text;;
       reply ← generate_reply uid user_text (tg_username user);
       add_msg HISTORY_TURNS uid RoleAssistant reply;;
       inc_user_counter uid;;
       reply_text upd reply)
    (λ e w,
       try_except (reply_text upd text_apology) (λ _, ret tt)
         (write_log (LogException "_tg_text error: %s" e) w)).

(** The handler of [/reset]; [user.id] is read inside the closure, after
    the connection is open. *)
Definition _tg_reset (upd : Update) : M unit :=
  try_except
    (_db_try
       (transaction (λ od,
          match effective_user upd with
          | None => (Raise AttributeError, od)
          | Some user => on_tables (_do_reset (tg_id user)) od
          end));;
     reply_text upd reset_ack)
    (λ e w,
       try_except (reply_text upd reset_apology) (λ _, ret tt)
         (write_log (LogException "_tg_reset error: %s" e) w)).

(** ** The local console *)

Definition fake_user_id : Z := 1.
Definition fake_username : string := "local_user".

Inductive loop_ctl : Set := Continue | Break.

(** The body of the [for raw in lines] loop of [run_local_session]. *)
Definition local_turn (raw : string) : M loop_ctl :=
  let user_text := str_strip raw in
  if decide (user_text = "") then ret Continue
  else if decide (user_text ∈ ["/quit"; ":q"; "exit"]) then ret Break
  else if decide (user_text = "/reset") then
    clear_history fake_user_id;;
    print "lana> Ок, начнём сначала ✨";;
    ret Continue
  else
    '(uid, used, _) ← get_user fake_user_id (Some fake_username);
    blocked ← quota_used_up used;
    if (blocked : bool) then
      print ("lana> " +:+ PAYWALL_HOOK uid);;
      ret Continue
    else
      add_msg HISTORY_TURNS uid RoleUser user_text;;
      reply ← generate_reply uid user_text (Some fake_username);
      add_msg HISTORY_TURNS uid RoleAssistant reply;;
      inc_user_counter uid;;
      print ("lana> " +:+ reply);;
      ret Continue.

Fixpoint session_loop (lines : list string) : M unit :=
  match lines with
  | [] => ret tt
  | raw :: rest =>
      ctl ← local_turn raw;
      match ctl with
      | Break => ret tt
      | Continue => session_loop rest
      end
  end.

Definition run_local_session (lines : list string) : M unit :=
  init_db;;
  get_user fake_user_id (Some fake_username);;
  session_loop lines.

End Engine.

(** ** Vocabulary of the statements proved below *)

(** The number of turns a user keeps: [2 * HISTORY_TURNS], none when that
    is negative. *)
Definition cap (HISTORY_TURNS : Z) : nat := Z.to_nat (HISTORY_TURNS * 2).

(** The pair [get_history] returns for a row. *)
Definition turn_of (row : ConvoRow) : Role * string := (role row, content row).

(** A closure that leaves the two backend globals alone, as every closure
    handed to [_db_try] in the source does. *)
Definition keeps_backend {T} (fn : M T) : Prop :=
  ∀ w, DB_URI (fn w).2 = DB_URI w ∧ DB_DSN (fn w).2 = DB_DSN w.

(** The file-backed mode with its tables in place and no fault pending. *)
Definition ready (d : Database) (w : World) : Prop :=
  DB_URI w = false ∧ file_db w = Some d ∧ db_faults w = [].

(** What SQLite stores as an INTEGER, and what Python binds as one. *)
Definition sqlite_integer (n : Z) : Prop := - 2 ^ 63 ≤ n < 2 ^ 63.

(** The name of the database is a path on disk: not [:memory:] and not
    empty, for which [sqlite3.connect] opens a private database that is gone
    when the connection closes. *)
Definition on_disk (w : World) : Prop :=
  DB_DSN w ≠ ":memory:" ∧ DB_DSN w ≠ "".

(** The name [_switch_to_memory_db] gives the database. *)
Definition MEMORY_DSN : string := "file:lana_memdb?mode=memory&cache=shared".


(** One storage call of the process: some closure run through [_db_try]. *)
Definition storage_step (w w' : World) : Prop :=
  ∃ (T : Type) (fn : M T), keeps_backend fn ∧ w' = (_db_try fn w).2.

(** The worlds a process goes through, one storage call after the other. *)
Inductive storage_run : World → list World → Prop :=
  | run_done w : storage_run w []
  | run_call w w' ws :
      storage_step w w' → storage_run w' ws → storage_run w (w' :: ws).

(** How often the backend mode changes along a run that starts in mode [b]. *)
Fixpoint mode_changes (b : bool) (ws : list World) : nat :=
  match ws with
  | [] => 0
  | w :: rest =>
      (if bool_decide (DB_URI w = b) then 0 else 1) + mode_changes (DB_URI w) rest
  end%nat.

(** The world in which [_db_try] retries after a failure [e] left [w]. *)
Definition fallback_world (e : exn) (w : World) : World :=
  _switch_to_memory_db
    (write_log
       (LogWarning "DB op failed (%s). Falling back to memory DB and retrying once." (Some e))
       w).

(** ** Sample data for the instances given with the theorems *)

Definition day1 : string := "2025-03-01".
Definition day2 : string := "2025-03-02".

(** A process in file mode whose file has no tables yet. *)
Definition blank_world : World :=
  mkWorld "/tmp/lana.db" false None day1 [] [] [] [].

(** Two users with three turns between them. *)
Definition sample_db : Database :=
  mkDatabase
    (<[42 := mkUserRow (Some "tester") (Some 3) (Some day1)]>
       (<[7 := mkUserRow None (Some 15) (Some day1)]> ∅))
    [mkConvoRow 1 42 RoleUser "hello";
     mkConvoRow 2 42 RoleAssistant "ok";
     mkConvoRow 4 7 RoleUser "salut"]
    4.

Definition sample_world : World :=
  mkWorld "/tmp/lana.db" false (Some sample_db) day1 [] [] [] [].

(** [add_msg] for each turn of a list, in order. *)
Fixpoint append_turns (HISTORY_TURNS : Z) (uid : Z)
    (turns : list (Role * string)) : M unit :=
  match turns with
  | [] => ret tt
  | t :: rest =>
      add_msg HISTORY_TURNS uid t.1 t.2;; append_turns HISTORY_TURNS uid rest
  end.

(** Every stored counter is an integer, not NULL, and not negative. *)
Definition counters_ok (d : Database) : Prop :=
  ∀ uid row, users d !! uid = Some row →
    ∃ n, messages_today row = Some n ∧ 0 ≤ n.

Definition world_counters_ok (w : World) : Prop :=
  ∀ d, file_db w = Some d → counters_ok d.

(** What happens to a process between two observations: one of the storage
    calls, or the environment moving on (the date, the faults to come). *)
Inductive Event : Type :=
  | CallInitDb
  | CallGetUser (uid : Z) (name : option string)
  | CallIncUserCounter (uid : Z)
  | CallAddMsg (uid : Z) (r : Role) (text : string)
  | CallGetHistory (uid : Z)
  | CallClearHistory (uid : Z)
  | EnvMoves (date : string) (faults : list (option exn)).

Definition run_event (HISTORY_TURNS : Z) (w : World) (ev : Event) : World :=
  match ev with
  | CallInitDb => (init_db w).2
  | CallGetUser uid name => (get_user uid name w).2
  | CallIncUserCounter uid => (inc_user_counter uid w).2
  | CallAddMsg uid r text => (add_msg HISTORY_TURNS uid r text w).2
  | CallGetHistory uid => (get_history uid w).2
  | CallClearHistory uid => (clear_history uid w).2
  | EnvMoves date faults =>
      mkWorld (DB_DSN w) (DB_URI w) (file_db w) date faults (net_faults w)
              (outbox w) (log w)
  end.

Definition run_events (HISTORY_TURNS : Z) (evs : list Event) (w : World) : World :=
  foldl (run_event HISTORY_TURNS) w evs.

(** ** A model of [str.strip] on UTF-8 text *)

(** The characters CPython takes for white space, by their encoding:
    U+0009..000D, U+001C..001F and U+0020 in one byte; U+0085 and U+00A0 in
    two; U+1680, U+2000..200A, U+2028, U+2029, U+202F, U+205F and U+3000 in
    three. *)
Definition space1 (a : Ascii.ascii) : bool :=
  let n := Ascii.nat_of_ascii a in
  ((9 <=? n) && (n <=? 13) || (28 <=? n) && (n <=? 32))%nat.

Definition space2 (a b : Ascii.ascii) : bool :=
  let '(m, n) := (Ascii.nat_of_ascii a, Ascii.nat_of_ascii b) in
  ((m =? 194) && ((n =? 133) || (n =? 160)))%nat.

Definition space3 (a b c : Ascii.ascii) : bool :=
  let '(l, m, n) := (Ascii.nat_of_ascii a, Ascii.nat_of_ascii b, Ascii.nat_of_ascii c) in
  ((l =? 225) && (m =? 154) && (n =? 128)
   || (l =? 226) && (m =? 128)
      && ((128 <=? n) && (n <=? 138) || (n =? 168) || (n =? 169) || (n =? 175))
   || (l =? 226) && (m =? 129) && (n =? 159)
   || (l =? 227) && (m =? 128) && (n =? 128))%nat.

Fixpoint lstrip (s : string) : string :=
  match s with
  | String.String a rest =>
      if space1 a then lstrip rest
      else match rest with
           | String.String b rest2 =>
               if space2 a b then lstrip rest2
               else match rest2 with
                    | String.String c rest3 => if space3 a b c then lstrip rest3 else s
                    | String.EmptyString => s
                    end
           | String.EmptyString => s
           end
  | String.EmptyString => s
  end.

(** The same on the reversed text, where an encoding reads backwards. *)
Fixpoint lstrip_reversed (s : string) : string :=
  match s with
  | String.String a rest =>
      if space1 a then lstrip_reversed rest
      else match rest with
           | String.String b rest2 =>
               if space2 b a then lstrip_reversed rest2
               else match rest2 with
                    | String.String c rest3 =>
                        if space3 c b a then lstrip_reversed rest3 else s
                    | String.EmptyString => s
                    end
           | String.EmptyString => s
           end
  | String.EmptyString => s
  end.

Definition py_strip (s : string) : string :=
  String.rev (lstrip_reversed (String.rev (lstrip s))).

(** ** The prompt, as one expression *)

(** The note on the display name, present when the name is known. *)
Definition name_note (name : option string) : list ChatMessage :=
  match name with
  | Some n =>
      if decide (n = "") then []
      else [mkMessage "system" ("User telegram username is @" +:+ n +:+ ".")]
  | None => []
  end.

Definition prompt_in_order (history : list (Role * string))
    (user_text : string) (name : option string) : list ChatMessage :=
  [mkMessage "system" SYSTEM_PROMPT] ++
  name_note name ++
  ((λ turn, mkMessage (role_name turn.1) turn.2) <$> history) ++
  [mkMessage "user" user_text].

(** [sub in s] of Python on two texts. *)
Definition contains (sub s : string) : Prop :=
  ∃ pre post, s = pre +:+ sub +:+ post.

(** A search for [sub] in [s], position by position. *)
Fixpoint find_sub (sub s : string) : bool :=
  String.prefix sub s ||
  match s with
  | String.String _ rest => find_sub sub rest
  | String.EmptyString => false
  end.

(** ** Vocabulary of the session loops *)

(** The counter [get_user] reads for a user on a given date: the stored
    one for a row of that date, 0 for an unknown user or a stale row. *)
Definition counter_read (uid : Z) (date : string) (d : Database) : option Z :=
  (_get uid None date d).1.1.2.

(** An update that carries a message of the user [uid]. *)
Definition from_user (uid : Z) (upd : Update) : Prop :=
  ∃ u msg, effective_user upd = Some u ∧ tg_id u = uid ∧ message upd = Some msg.

(** A console line that is a chat message: not blank, not a quit command,
    not [/reset]. *)
Definition chat_line (str_strip : string → string) (raw : string) : Prop :=
  str_strip raw ≠ "" ∧
  (str_strip raw ∉ ["/quit"; ":q"; "exit"]) ∧
  str_strip raw ≠ "/reset".

(** The worlds agree on everything but the tables and the log. *)
Definition same_env (w w' : World) : Prop :=
  DB_DSN w' = DB_DSN w ∧ DB_URI w' = DB_URI w ∧ today w' = today w ∧
  db_faults w' = db_faults w ∧ net_faults w' = net_faults w ∧
  outbox w' = outbox w.

Section Dispatch.
Variable FREE_MESSAGES_PER_DAY : Z.
Variable HISTORY_TURNS : Z.
Variable provider : option (list ChatMessage → completion).
Variable str_strip : string → string.

(** The text handler run on the updates of a queue, one after the other. *)
Fixpoint handle_updates (upds : list Update) : M unit :=
  match upds with
  | [] => ret tt
  | upd :: rest =>
      _tg_text FREE_MESSAGES_PER_DAY HISTORY_TURNS provider str_strip upd;;
      handle_updates rest
  end.
End Dispatch.

(** A text message of a Telegram user. *)
Definition text_update (uid : Z) (name : option string) (body : string) : Update :=
  mkUpdate (Some (mkTgUser uid name)) (Some (mkTgMessage (Some body))).

(** * The rest of the program *)

(** ** The other Telegram handlers *)

Section Commands.
Variable FREE_MESSAGES_PER_DAY : Z.

(** The greeting of [/start]; the limit is printed in decimal. *)
Definition start_text : string :=
  "Привет! Я Lana — твоя ИИ-компаньонка. 💫

Пиши на любом языке — я подстроюсь. Первый день даю " +:+ pretty FREE_MESSAGES_PER_DAY +:+ " сообщений бесплатно.
Команды: /help /reset /stats.".

Definition help_text : string :=
  "Я — Lana: тёплая, остроумная, иногда флиртую 😉

Что я умею:
• Поддержать, поболтать, обсудить планы.
• Практиковать языки — отвечаю на том же языке.
• Помнить твои предпочтения в рамках чата.

Безопасность: PG-13, без откровенного контента.
Команды: /reset — забыть текущий контекст, /stats — лимит на сегодня.".

(** The line of [/stats]. *)
Definition stats_text (left : Z) : string :=
  "Сегодня осталось сообщений: " +:+ pretty left +:+ "/" +:+
  pretty FREE_MESSAGES_PER_DAY.

(** [_tg_start]: a failure is logged and nothing is sent. *)
Definition _tg_start (upd : Update) : M unit :=
  try_except
    (user ← attr (effective_user upd);
     get_user (tg_id user) (tg_username user);;
     reply_text upd start_text)
    (λ e w, (Ok tt, write_log (LogException "_tg_start error: %s" e) w)).

Definition _tg_help (upd : Update) : M unit :=
  try_except
    (reply_text upd help_text)
    (λ e w, (Ok tt, write_log (LogException "_tg_help error: %s" e) w)).

(** [max(0, FREE_MESSAGES_PER_DAY - used)]; a NULL counter comes back as
    [None] and the subtraction raises. *)
Definition messages_left (used : option Z) : M Z :=
  match used with
  | Some n => ret (Z.max 0 (FREE_MESSAGES_PER_DAY - n))
  | None => raise TypeError
  end.

Definition _tg_stats (upd : Update) : M unit :=
  try_except
    (user ← attr (effective_user upd);
     '(_, used, _) ← get_user (tg_id user) (tg_username user);
     left ← messages_left used;
     reply_text upd (stats_text left))
    (λ e w, (Ok tt, write_log (LogException "_tg_stats error: %s" e) w)).
End Commands.

(** ** The local command line *)

(** What the process finds around it when started with [--local]:
    - [read_script path]: what [open(path)] and [f.readlines()] come to;
    - [stdin_isatty]: [sys.stdin.isatty()];
    - [stdin_read]: what [sys.stdin.read()] does;
    - [keyboard]: what the successive calls of [input] do; past its end
      the input is closed and [input] raises [EOFError]. *)
Record Console : Type := mkConsole {
  read_script : string → outcome (list string);
  stdin_isatty : bool;
  stdin_read : outcome string;
  keyboard : list (outcome string)
}.

#[global] Instance exn_eq_dec : EqDecision exn.
Proof. solve_decision. Defined.

Definition EOFError : exn := OtherError "EOFError".
Definition KeyboardInterrupt : exn := OtherError "KeyboardInterrupt".

(** [_read_stdin_safely]: the text of the stream, the empty text when
    reading raises [OSError] or [AttributeError]. *)
Definition _read_stdin_safely (stream : outcome string) : outcome string :=
  match stream with
  | Ok data => Ok data
  | Raise OSError | Raise AttributeError => Ok ""
  | Raise e => Raise e
  end.

(** The lines an [io.StringIO] yields: each ends after its line feed. *)
Fixpoint split_lines (data : string) : list string :=
  match data with
  | String.EmptyString => []
  | String.String c rest =>
      if decide (c = Ascii.ascii_of_nat 10)
      then String.String c "" :: split_lines rest
      else match split_lines rest with
           | [] => [String.String c ""]
           | line :: more => String.String c line :: more
           end
  end.

(** The transcript [run_local_cli] plays when there is nothing to read. *)
Definition demo : list string :=
  ["Привет, Лана!"; "Как твои дела?"; "/reset"; "Давай начнём заново"; "/quit"].

Section CommandLine.
Variable FREE_MESSAGES_PER_DAY : Z.
Variable HISTORY_TURNS : Z.
Variable provider : option (list ChatMessage → completion).
Variable str_strip : string → string.

(** The body of the [while True] loop of [run_local_cli] once a line is
    read. Unlike the loop of [run_local_session] it has no test for an empty
    text. *)
Definition interactive_turn (line : string) : M loop_ctl :=
  let user_text := str_strip line in
  if decide (user_text ∈ ["/quit"; ":q"; "exit"]) then ret Break
  else if decide (user_text = "/reset") then
    clear_history fake_user_id;;
    print "lana> Ок, начнём сначала ✨";;
    ret Continue
  else
    '(uid, used, _) ← get_user fake_user_id (Some fake_username);
    blocked ← quota_used_up FREE_MESSAGES_PER_DAY used;
    if (blocked : bool) then
      print ("lana> " +:+ PAYWALL_HOOK uid);;
      ret Continue
    else
      add_msg HISTORY_TURNS uid RoleUser user_text;;
      reply ← generate_reply provider str_strip uid user_text (Some fake_username);
      add_msg HISTORY_TURNS uid RoleAssistant reply;;
      inc_user_counter uid;;
      print ("lana> " +:+ reply);;
      ret Continue.

(** The [while True] loop: [input] writes its prompt, then returns a line
    or raises; [EOFError], [KeyboardInterrupt] and [OSError] end the loop
    after an empty [print]. *)
Fixpoint interactive_loop (keys : list (outcome string)) : M unit :=
  match keys with
  | [] => print "you> ";; print ""
  | Raise e :: _ =>
      print "you> ";;
      if decide (e = EOFError ∨ e = KeyboardInterrupt ∨ e = OSError)
      then print ""
      else raise e
  | Ok line :: rest =>
      print "you> ";;
      ctl ← interactive_turn line;
      match ctl with
      | Break => ret tt
      | Continue => interactive_loop rest
      end
  end.

Definition run_local_cli (script_path : option string) (con : Console) : M unit :=
  if truthy script_path then
    match read_script con (default "" script_path) with
    | Ok lines =>
        run_local_session FREE_MESSAGES_PER_DAY HISTORY_TURNS provider
          str_strip lines
    | Raise e => raise e
    end
  else if negb (stdin_isatty con) then
    match _read_stdin_safely (stdin_read con) with
    | Ok data =>
        if decide (data = "") then
          print "Lana non-interactive demo ✨ (no stdin detected)";;
          run_local_session FREE_MESSAGES_PER_DAY HISTORY_TURNS provider
            str_strip demo
        else
          run_local_session FREE_MESSAGES_PER_DAY HISTORY_TURNS provider
            str_strip (split_lines data)
    | Raise e => raise e
    end
  else
    init_db;;
    print "Lana local sandbox ✨ (type /quit to exit, /reset to clear)";;
    get_user fake_user_id (Some fake_username);;
    interactive_loop (keyboard con).
End CommandLine.

(** ** Vocabulary for runs with a fault on the way *)

(** File mode with the tables [d] in place, and [f] what the coming
    storage runs meet: [None] for a run that goes through, [Some e] for one
    that raises [e]. *)
Definition scheduled (d : Database) (f : list (option exn)) (w : World) : Prop :=
  DB_URI w = false ∧ file_db w = Some d ∧ db_faults w = f.

(** * Proofs *)

(** ** Facts about key-ordered tables *)

Section KeyOrder.
Implicit Types (rows : list ConvoRow) (r : ConvoRow).

Lemma filter_keep_all (P : ConvoRow → Prop) `{!∀ x, Decision (P x)} rows :
  Forall P rows → filter P rows = rows.
Proof.
  induction 1 as [|x l Hx _ IH]; [done|].
  by rewrite filter_cons_True, IH.
Qed.

Lemma filter_drop_all (P : ConvoRow → Prop) `{!∀ x, Decision (P x)} rows :
  Forall (λ x, ¬ P x) rows → filter P rows = [].
Proof.
  induction 1 as [|x l Hx _ IH]; [done|].
  by rewrite filter_cons_False.
Qed.

Lemma filter_ext_elem (P Q : ConvoRow → Prop)
    `{!∀ x, Decision (P x)} `{!∀ x, Decision (Q x)} rows :
  (∀ x, x ∈ rows → P x ↔ Q x) → filter P rows = filter Q rows.
Proof.
  induction rows as [|x l IH]; [done|]. intros HPQ.
  rewrite !filter_cons, IH by (intros; apply HPQ; by right).
  pose proof (HPQ x ltac:(by left)).
  repeat case_decide; tauto || done.
Qed.

Lemma sorted_filter (P : ConvoRow → Prop) `{!∀ x, Decision (P x)} rows :
  StronglySorted id_lt rows → StronglySorted id_lt (filter P rows).
Proof.
  induction 1 as [|x l Hl IH Hx]; [constructor|].
  rewrite filter_cons. case_decide; [|done].
  constructor; [done|].
  apply Forall_forall. intros y [_ Hy]%list_elem_of_filter.
  by eapply Forall_forall in Hx.
Qed.

Lemma insert_by_id_head r rows :
  Forall (id_lt r) rows → insert_by_id r rows = r :: rows.
Proof.
  destruct 1 as [|x l Hx _]; [done|]. simpl.
  unfold id_lt in Hx. case_decide; [done|lia].
Qed.

Lemma order_by_id_asc_sorted rows :
  StronglySorted id_lt rows → order_by_id_asc rows = rows.
Proof.
  induction 1 as [|x l Hl IH Hx]; [done|].
  simpl. rewrite IH. by apply insert_by_id_head.
Qed.

Lemma max_id_ge rows r : r ∈ rows → id r <= max_id rows.
Proof.
  induction rows as [|x l IH]; [by intros ?%elem_of_nil|].
  intros [->|Hr]%elem_of_cons; simpl; [lia|].
  specialize (IH Hr). lia.
Qed.

Lemma sorted_snoc rows r :
  StronglySorted id_lt rows → max_id rows < id r →
  StronglySorted id_lt (rows ++ [r]).
Proof.
  intros Hs Hr. apply StronglySorted_app_2; [|done|repeat constructor].
  intros x1 x2 H1 ->%list_elem_of_singleton.
  apply max_id_ge in H1. unfold id_lt. lia.
Qed.

(** Deleting the keys of the first [m] rows leaves the rows after them. *)
Lemma filter_not_in_take rows m :
  StronglySorted id_lt rows →
  filter (λ r, id r ∉ id <$> take m rows) rows = drop m rows.
Proof.
  intros Hs.
  rewrite <-(take_drop m rows) in Hs.
  transitivity (filter (λ r, id r ∉ id <$> take m rows)
                  (take m rows ++ drop m rows)).
  { by rewrite take_drop. }
  rewrite filter_app, filter_drop_all, filter_keep_all; [done| |].
  - apply Forall_forall. intros y Hy [x [Hid Hx]]%list_elem_of_fmap.
    pose proof (StronglySorted_app_1_elem_of _ _ _ _ _ Hs Hx Hy) as Hlt.
    unfold id_lt in Hlt. lia.
  - apply Forall_forall. intros y Hy Hn. apply Hn.
    by apply list_elem_of_fmap_2.
Qed.

(** Two rows of a table with the same key are the same row. *)
Lemma sorted_key_inj rows r1 r2 :
  StronglySorted id_lt rows → r1 ∈ rows → r2 ∈ rows → id r1 = id r2 → r1 = r2.
Proof.
  induction 1 as [|x l Hl IH Hx]; [by intros ?%elem_of_nil|].
  rewrite Forall_forall in Hx. unfold id_lt in Hx.
  intros [->|H1]%elem_of_cons [->|H2]%elem_of_cons Hid; auto.
  - specialize (Hx _ H2). lia.
  - specialize (Hx _ H1). lia.
Qed.
End KeyOrder.

Lemma lastn_length {A} n (l : list A) : length (lastn n l) = (length l `min` n)%nat.
Proof. unfold lastn. rewrite length_drop. lia. Qed.

Lemma lastn_app_lastn {A} n (l k : list A) :
  lastn n (lastn n l ++ k) = lastn n (l ++ k).
Proof.
  unfold lastn. rewrite !length_app, length_drop.
  destruct (decide (length l ≤ n)%nat) as [Hle|Hgt].
  - replace (length l - n)%nat with 0%nat by lia.
    by rewrite Nat.sub_0_r.
  - rewrite !drop_app, drop_drop, length_drop.
    f_equal; f_equal; lia.
Qed.

Lemma lastn_app_r {A} n (l k : list A) :
  (n ≤ length k)%nat → lastn n (l ++ k) = lastn n k.
Proof.
  intros. unfold lastn. rewrite length_app, drop_app.
  rewrite drop_ge by lia. simpl. f_equal. lia.
Qed.

Lemma lastn_fmap {A B} (f : A → B) n (l : list A) :
  f <$> lastn n l = lastn n (f <$> l).
Proof. unfold lastn. by rewrite fmap_drop, length_fmap. Qed.

(** ** What the statements do to a key-ordered table *)

Section StatementFacts.
Variable HISTORY_TURNS : Z.

Lemma next_id_fresh d : max_id (convo d) < next_id d.
Proof. unfold next_id. lia. Qed.

Lemma inserted_sorted d uid r c :
  wf_db d → StronglySorted id_lt (convo d ++ [mkConvoRow (next_id d) uid r c]).
Proof. intros Hd. apply sorted_snoc; [done|]. apply next_id_fresh. Qed.

Lemma rows_of_snoc uid rows row :
  rows_of uid (rows ++ [row]) =
  rows_of uid rows ++ (if decide (user_id row = uid) then [row] else []).
Proof.
  unfold rows_of. by rewrite filter_app.
Qed.

Lemma trimmed_ids_sorted uid rows :
  StronglySorted id_lt rows →
  ∀ k, k ∈ trimmed_ids HISTORY_TURNS uid rows ↔
       k ∈ id <$> take (length (rows_of uid rows) - cap HISTORY_TURNS)%nat (rows_of uid rows).
Proof.
  intros Hs k. unfold trimmed_ids, limit_all_offset, order_by_id_desc.
  rewrite order_by_id_asc_sorted by by apply sorted_filter.
  rewrite drop_reverse, fmap_reverse. apply elem_of_reverse.
Qed.

Lemma _add_wf uid r c d : wf_db d → wf_db (_add HISTORY_TURNS uid r c d).2.
Proof.
  intros Hd. unfold wf_db, _add. simpl.
  apply sorted_filter. by apply inserted_sorted.
Qed.

Lemma _add_rows_same uid r c d :
  wf_db d →
  rows_of uid (convo (_add HISTORY_TURNS uid r c d).2) =
  lastn (cap HISTORY_TURNS) (rows_of uid (convo d) ++ [mkConvoRow (next_id d) uid r c]).
Proof.
  intros Hd. pose proof (inserted_sorted d uid r c Hd) as Hs.
  unfold _add. simpl.
  set (ins := convo d ++ [mkConvoRow (next_id d) uid r c]) in *.
  assert (rows_of uid ins =
          rows_of uid (convo d) ++ [mkConvoRow (next_id d) uid r c]) as HL.
  { unfold ins. rewrite rows_of_snoc. simpl. by rewrite decide_True. }
  rewrite <-HL. unfold rows_of at 1.
  rewrite list_filter_filter.
  rewrite (list_filter_iff _
    (λ x, (id x ∉ id <$> take (length (rows_of uid ins) - cap HISTORY_TURNS)%nat (rows_of uid ins))
          ∧ user_id x = uid)).
  2:{ intros x. rewrite trimmed_ids_sorted by done. tauto. }
  rewrite <-list_filter_filter. fold (rows_of uid ins).
  apply filter_not_in_take. by apply sorted_filter.
Qed.

Lemma _add_rows_other uid uid' r c d :
  wf_db d → uid' ≠ uid →
  rows_of uid' (convo (_add HISTORY_TURNS uid r c d).2) = rows_of uid' (convo d).
Proof.
  intros Hd Hne. pose proof (inserted_sorted d uid r c Hd) as Hs.
  unfold _add. simpl.
  set (ins := convo d ++ [mkConvoRow (next_id d) uid r c]) in *.
  assert (rows_of uid' ins = rows_of uid' (convo d)) as HL.
  { unfold ins. rewrite rows_of_snoc. simpl.
    rewrite decide_False by done. apply app_nil_r. }
  rewrite <-HL. unfold rows_of.
  rewrite list_filter_filter. apply filter_ext_elem.
  intros x Hx. split; [tauto|]. intros Hu. split; [done|].
  rewrite trimmed_ids_sorted by done.
  intros [y [Hid Hy]]%list_elem_of_fmap.
  apply subseteq_take in Hy. apply list_elem_of_filter in Hy as [Hyu Hy].
  assert (x = y) by by eapply sorted_key_inj. congruence.
Qed.

Lemma _hist_rows uid d :
  wf_db d → (_hist uid d).1 = turn_of <$> rows_of uid (convo d).
Proof.
  intros Hd. unfold _hist. simpl.
  by rewrite order_by_id_asc_sorted by by apply sorted_filter.
Qed.

(** One append: the history is the old one with the new turn at its end,
    cut down to its last [cap] turns. *)
Lemma _hist_add_same uid r c d :
  wf_db d →
  (_hist uid (_add HISTORY_TURNS uid r c d).2).1 =
  lastn (cap HISTORY_TURNS) ((_hist uid d).1 ++ [(r, c)]).
Proof.
  intros Hd.
  rewrite !_hist_rows by auto using _add_wf.
  rewrite _add_rows_same by done.
  by rewrite lastn_fmap, fmap_app.
Qed.

Lemma _hist_add_other uid uid' r c d :
  wf_db d → uid' ≠ uid →
  (_hist uid' (_add HISTORY_TURNS uid r c d).2).1 = (_hist uid' d).1.
Proof.
  intros Hd Hne.
  rewrite !_hist_rows by auto using _add_wf.
  by rewrite _add_rows_other.
Qed.

End StatementFacts.

(** ** Running storage calls *)

Ltac case_world w :=
  destruct w as [dsn uri fdb day dbf netf out lg]; simpl in *.

Lemma transaction_keeps_backend {T} stmts : keeps_backend (@transaction T stmts).
Proof.
  intros w. unfold transaction.
  destruct (db_faults w) as [|[e|] rest]; simpl; try done;
    destruct (DB_URI w) eqn:Huri; simpl; try done;
    destruct (stmts (file_db w)) as [r d]; by simpl.
Qed.

Lemma get_closure_keeps_backend uid name :
  keeps_backend (λ w, transaction (on_tables (_get uid name (today w))) w).
Proof. intros w. apply transaction_keeps_backend. Qed.

Lemma ready_set_file_db d d' w : ready d w → ready d' (set_file_db (Some d') w).
Proof. intros (? & ? & ?). by repeat split. Qed.

Lemma transaction_ready {T} (stmt : Database → T * Database) d w :
  ready d w →
  transaction (on_tables stmt) w = (Ok (stmt d).1, set_file_db (Some (stmt d).2) w).
Proof.
  intros (Huri & Hdb & Hf). case_world w. subst.
  unfold transaction, on_tables. simpl. by destruct (stmt d).
Qed.

Lemma db_try_ready {T} (stmt : Database → T * Database) d w :
  ready d w →
  _db_try (transaction (on_tables stmt)) w =
  (Ok (stmt d).1, set_file_db (Some (stmt d).2) w).
Proof. intros Hr. unfold _db_try. by rewrite (transaction_ready _ d). Qed.

(** In memory mode, and in a file without tables, the statements on the
    tables raise. *)
Lemma transaction_memory {T} (stmt : Database → T * Database) w :
  DB_URI w = true → ∃ e w', transaction (on_tables stmt) w = (Raise e, w').
Proof.
  intros Huri. unfold transaction.
  destruct (db_faults w) as [|[e|] rest]; simpl; rewrite ?Huri; eauto.
Qed.

(** A storage call that returns has run its statements on the file. *)
Lemma db_try_ok_inv {T} (stmt : World → Database → T * Database) w v w' :
  _db_try (λ w, transaction (on_tables (stmt w)) w) w = (Ok v, w') →
  ∃ d, DB_URI w = false ∧ file_db w = Some d ∧
       v = (stmt w d).1 ∧
       w' = set_file_db (Some (stmt w d).2) (set_db_faults (tail (db_faults w)) w).
Proof.
  unfold _db_try.
  destruct (transaction (on_tables (stmt w)) w) as [[v1|e] w1] eqn:Hrun.
  - intros [= -> ->]. revert Hrun. unfold transaction.
    destruct (db_faults w) as [|[e|] rest] eqn:Hf; simpl; try done;
      destruct (DB_URI w) eqn:Huri; simpl; try done;
      destruct (file_db w) as [d|] eqn:Hd; simpl; try done;
      destruct (stmt w d) as [v' d'] eqn:Hs; simpl;
      intros [= <- <-]; exists d; by rewrite Hs.
  - destruct (io_class e); [|done].
    destruct (DB_URI w1) eqn:Huri; [done|]. simpl.
    set (w2 := _switch_to_memory_db _).
    destruct (transaction_memory (stmt w2) w2 eq_refl) as (e' & w3 & ->).
    done.
Qed.

(** ** The one-shot fallback of [_db_try] *)

Section Fallback.
Context {T : Type} (fn : M T).
Hypothesis fn_keeps : keeps_backend fn.

Lemma db_try_ok w v w1 : fn w = (Ok v, w1) → _db_try fn w = (Ok v, w1).
Proof. intros Hrun. unfold _db_try. by rewrite Hrun. Qed.

Lemma db_try_retry w e w1 :
  fn w = (Raise e, w1) → io_class e = true → DB_URI w = false →
  _db_try fn w = fn (fallback_world e w1).
Proof.
  intros Hrun Hio Huri. unfold _db_try. rewrite Hrun, Hio.
  destruct (fn_keeps w) as [Hk _]. rewrite Hrun in Hk. simpl in Hk.
  by rewrite Hk, Huri.
Qed.

Lemma db_try_memory w e w1 :
  fn w = (Raise e, w1) → DB_URI w = true → _db_try fn w = (Raise e, w1).
Proof.
  intros Hrun Huri. unfold _db_try. rewrite Hrun.
  destruct (fn_keeps w) as [Hk _]. rewrite Hrun in Hk. simpl in Hk.
  rewrite Hk, Huri. by destruct (io_class e).
Qed.

Lemma db_try_other w e w1 :
  fn w = (Raise e, w1) → io_class e = false → _db_try fn w = (Raise e, w1).
Proof. intros Hrun Hio. unfold _db_try. by rewrite Hrun, Hio. Qed.

(** The mode after a wrapped call: memory if it was memory, or if the call
    fell back. *)
Lemma db_try_mode w :
  DB_URI (_db_try fn w).2 = true ∨ DB_URI (_db_try fn w).2 = DB_URI w.
Proof.
  destruct (fn_keeps w) as [Hk _].
  destruct (fn w) as [[v|e] w1] eqn:Hrun; simpl in Hk.
  - right. by rewrite (db_try_ok _ _ _ Hrun).
  - destruct (io_class e) eqn:Hio; [destruct (DB_URI w) eqn:Huri|].
    + left. by rewrite (db_try_memory _ _ _ Hrun Huri).
    + left. rewrite (db_try_retry _ _ _ Hrun Hio Huri).
      by destruct (fn_keeps (fallback_world e w1)) as [-> _].
    + right. by rewrite (db_try_other _ _ _ Hrun Hio).
Qed.
End Fallback.

Lemma storage_step_mode w w' :
  storage_step w w' → DB_URI w' = true ∨ DB_URI w' = DB_URI w.
Proof. intros (T & fn & Hfn & ->). by apply db_try_mode. Qed.

Lemma storage_run_memory w ws :
  storage_run w ws → DB_URI w = true →
  Forall (λ w', DB_URI w' = true) ws ∧ mode_changes true ws = 0%nat.
Proof.
  induction 1 as [|w w' ws Hstep _ IH]; intros Huri; [done|].
  assert (DB_URI w' = true) as Huri'.
  { destruct (storage_step_mode _ _ Hstep); congruence. }
  destruct (IH Huri') as [Hall Hn]. split; [by constructor|].
  simpl. rewrite Huri'. by rewrite bool_decide_eq_true_2.
Qed.

Lemma storage_run_changes w ws :
  storage_run w ws → (mode_changes (DB_URI w) ws ≤ 1)%nat.
Proof.
  induction 1 as [|w w' ws Hstep Hrun IH]; simpl; [lia|].
  destruct (storage_step_mode _ _ Hstep) as [Huri'|Hsame].
  - destruct (storage_run_memory _ _ Hrun Huri') as [_ Hn].
    rewrite Huri' in *. rewrite Hn. case_bool_decide; lia.
  - rewrite Hsame in *. rewrite bool_decide_eq_true_2 by done. lia.
Qed.



Lemma get_user_ready uid name d w :
  ready d w →
  get_user uid name w =
  (Ok (_get uid name (today w) d).1,
   set_file_db (Some (_get uid name (today w) d).2) w).
Proof.
  intros Hr. unfold get_user, _db_try.
  by rewrite (transaction_ready _ d).
Qed.

Lemma sample_db_wf : wf_db sample_db.
Proof. unfold wf_db, sample_db, id_lt. simpl. repeat constructor; simpl; lia. Qed.

Lemma sample_world_ready : ready sample_db sample_world.
Proof. by repeat split. Qed.

(** ** The user row *)

(** C4. In file mode with the tables in place and no fault pending,
    [get_user] returns [(uid, used, today)] and touches only the row of
    [uid]: an unknown [uid] gets a row with counter 0 and today's date and
    [used] is 0; a row whose [last_reset] is not today has its counter set to
    0 and its date to today, and [used] is 0; a row dated today is left as it
    is and [used] is its stored counter. *)
Theorem get_user_contract (uid : Z) (name : option string) (d : Database)
    (w : World) :
  ready d w →
  ∃ used d',
    get_user uid name w = (Ok (uid, used, Some (today w)), set_file_db (Some d') w) ∧
    convo d' = convo d ∧
    (∀ u, u ≠ uid → users d' !! u = users d !! u) ∧
    match users d !! uid with
    | None =>
        used = Some 0 ∧
        users d' !! uid = Some (mkUserRow name (Some 0) (Some (today w)))
    | Some row =>
        if decide (last_reset row = Some (today w))
        then used = messages_today row ∧ d' = d
        else used = Some 0 ∧
             users d' !! uid =
               Some (mkUserRow (username row) (Some 0) (Some (today w)))
    end.
Proof.
  intros Hr. rewrite (get_user_ready _ _ d) by done. unfold _get.
  destruct (users d !! uid) as [row|] eqn:Hrow.
  - destruct (decide (last_reset row = Some (today w))) as [Hd|Hd].
    + exists (messages_today row), d. rewrite Hd. by repeat split.
    + eexists _, _. split; [done|]. simpl. repeat split.
      * intros u Hu. by rewrite lookup_insert_ne.
      * by rewrite lookup_insert_eq.
  - eexists _, _. split; [done|]. simpl. repeat split.
    + intros u Hu. by rewrite lookup_insert_ne.
    + by rewrite lookup_insert_eq.
Qed.

(** An instance: user 42 of the sample data on the next day. *)
Lemma get_user_contract_witness :
  ready sample_db (mkWorld "/tmp/lana.db" false (Some sample_db) day2 [] [] [] []) ∧
  ∃ used d',
    get_user 42 (Some "tester")
      (mkWorld "/tmp/lana.db" false (Some sample_db) day2 [] [] [] []) =
    (Ok (42, used, Some day2),
     mkWorld "/tmp/lana.db" false (Some d') day2 [] [] [] []) ∧
    used = Some 0.
Proof.
  split; [by repeat split|].
  destruct (get_user_contract 42 (Some "tester") sample_db
              (mkWorld "/tmp/lana.db" false (Some sample_db) day2 [] [] [] []))
    as (used & d' & Hrun & _ & _ & Hcase); [by repeat split|].
  exists used, d'. split; [exact Hrun|]. exact (proj1 Hcase).
Defined.

(** ** Clearing the history *)

Lemma set_file_db_twice d1 d2 w :
  set_file_db d2 (set_file_db d1 w) = set_file_db d2 w.
Proof. done. Qed.

Lemma rows_of_after_reset uid d : rows_of uid (convo (_do_reset uid d).2) = [].
Proof.
  unfold _do_reset, rows_of. simpl. apply filter_drop_all, Forall_forall.
  by intros x [Hx _]%list_elem_of_filter.
Qed.

Lemma _hist_after_reset uid d : (_hist uid (_do_reset uid d).2).1 = [].
Proof. unfold _hist. by rewrite rows_of_after_reset. Qed.

Lemma rows_of_reset_other uid uid' d :
  uid' ≠ uid → rows_of uid' (convo (_do_reset uid d).2) = rows_of uid' (convo d).
Proof.
  intros Hne. unfold _do_reset, rows_of. simpl.
  rewrite list_filter_filter. apply filter_ext_elem.
  intros x _. split; [tauto|]. intros Hx. split; [done|congruence].
Qed.

Lemma clear_history_ready uid d w :
  ready d w →
  clear_history uid w = (Ok tt, set_file_db (Some (_do_reset uid d).2) w).
Proof. intros Hr. unfold clear_history. by rewrite (db_try_ready _ d). Qed.

Lemma get_history_ready uid d w :
  ready d w → get_history uid w = (Ok (_hist uid d).1, set_file_db (Some d) w).
Proof. intros Hr. unfold get_history. by rewrite (db_try_ready _ d). Qed.

Lemma add_msg_ready HISTORY_TURNS uid r c d w :
  ready d w →
  add_msg HISTORY_TURNS uid r c w =
  (Ok tt, set_file_db (Some (_add HISTORY_TURNS uid r c d).2) w).
Proof. intros Hr. unfold add_msg. by rewrite (db_try_ready _ d). Qed.

Lemma inc_user_counter_ready uid d w :
  ready d w →
  inc_user_counter uid w = (Ok tt, set_file_db (Some (_inc uid d).2) w).
Proof. intros Hr. unfold inc_user_counter. by rewrite (db_try_ready _ d). Qed.

(** Whatever the state of the process, a reset that returned followed by a
    read that returned reads nothing. *)
Lemma clear_then_history_any uid w w1 w2 h :
  clear_history uid w = (Ok tt, w1) → get_history uid w1 = (Ok h, w2) → h = [].
Proof.
  intros Hclear Hread.
  apply (db_try_ok_inv (λ _, _do_reset uid)) in Hclear
    as (d & _ & _ & _ & ->).
  apply (db_try_ok_inv (λ _, _hist uid)) in Hread
    as (d1 & _ & Hd1 & -> & _).
  change (Some (_do_reset uid d).2 = Some d1) in Hd1.
  apply (inj Some) in Hd1 as <-. apply _hist_after_reset.
Qed.

(** C7. Whatever the tables hold, [clear_history] for a user followed at
    once by [get_history] for the same user returns the empty list; and in
    any state of the process, when both calls return, the list is empty. *)
Theorem clear_then_history_empty (uid : Z) (d : Database) (w : World) :
  ready d w →
  (∃ w1 w2, clear_history uid w = (Ok tt, w1) ∧
            get_history uid w1 = (Ok [], w2)) ∧
  (∀ w' w1 w2 h, clear_history uid w' = (Ok tt, w1) →
                 get_history uid w1 = (Ok h, w2) → h = []).
Proof.
  intros Hr. split; [|apply clear_then_history_any].
  eexists _, _. split; [by apply (clear_history_ready _ d)|].
  rewrite (get_history_ready _ (_do_reset uid d).2)
    by by apply (ready_set_file_db d).
  by rewrite _hist_after_reset.
Qed.

(** An instance: user 42 of the sample data, who has two turns. *)
Lemma clear_then_history_empty_witness :
  ready sample_db sample_world ∧
  (get_history 42 sample_world).1 = Ok [(RoleUser, "hello"); (RoleAssistant, "ok")] ∧
  ∃ w1 w2, clear_history 42 sample_world = (Ok tt, w1) ∧
           get_history 42 w1 = (Ok [], w2).
Proof.
  split; [exact sample_world_ready|]. split; [reflexivity|].
  exact (proj1 (clear_then_history_empty 42 sample_db sample_world
                  sample_world_ready)).
Defined.

(** ** The bounded history *)

(** Appending a non-empty list of turns: the history is the old one
    followed by the new turns, cut down to its last [cap] entries. *)
Lemma append_turns_ready HISTORY_TURNS uid turns : ∀ d w,
  wf_db d → ready d w →
  ∃ d', append_turns HISTORY_TURNS uid turns w = (Ok tt, set_file_db (Some d') w) ∧
        wf_db d' ∧
        users d' = users d ∧
        (turns = [] → d' = d) ∧
        (turns ≠ [] →
         (_hist uid d').1 = lastn (cap HISTORY_TURNS) ((_hist uid d).1 ++ turns)).
Proof.
  induction turns as [|[r c] rest IH]; intros d w Hwf Hr.
  - exists d. simpl. unfold ret. destruct Hr as (? & Hd & ?).
    split; [by case_world w; subst|]. by repeat split.
  - set (d1 := (_add HISTORY_TURNS uid r c d).2).
    assert (wf_db d1) as Hwf1 by by apply _add_wf.
    assert (ready d1 (set_file_db (Some d1) w)) as Hr1
      by by apply (ready_set_file_db d).
    destruct (IH d1 _ Hwf1 Hr1) as (d' & Hrun & Hwf' & Hu & Hnil & Hcons).
    exists d'. split; [|split; [done|split; [by rewrite Hu|split; [done|]]]].
    + simpl. unfold mbind, M_bind, bind.
      rewrite (add_msg_ready _ _ _ _ d) by done. fold d1.
      by rewrite Hrun.
    + intros _. destruct rest as [|t rest'].
      * rewrite (Hnil eq_refl). by apply _hist_add_same.
      * rewrite Hcons by done. unfold d1.
        rewrite _hist_add_same by done.
        by rewrite lastn_app_lastn, <-app_assoc.
Qed.

(** After an append that returned, a read that returns shows at most [cap]
    turns of that user. *)
Lemma add_then_history_bound HISTORY_TURNS uid r c w wa h wb :
  (∀ d, file_db w = Some d → wf_db d) →
  add_msg HISTORY_TURNS uid r c w = (Ok tt, wa) →
  get_history uid wa = (Ok h, wb) →
  (length h ≤ cap HISTORY_TURNS)%nat.
Proof.
  intros Hwf Hadd Hread.
  apply (db_try_ok_inv (λ _, _add HISTORY_TURNS uid r c)) in Hadd
    as (d & _ & Hd & _ & ->).
  apply (db_try_ok_inv (λ _, _hist uid)) in Hread
    as (d1 & _ & Hd1 & -> & _).
  change (Some (_add HISTORY_TURNS uid r c d).2 = Some d1) in Hd1.
  apply (inj Some) in Hd1 as <-. cbv beta.
  rewrite _hist_add_same by auto. rewrite lastn_length. lia.
Qed.

(** C1, amended. For a configuration with [HISTORY_TURNS >= 0], a user of a
    key-ordered table, and more than [2 * HISTORY_TURNS] turns appended with
    [add_msg], [get_history] returns exactly the last [2 * HISTORY_TURNS]
    appended turns, in the order of insertion, oldest first, the earlier
    ones being gone; and after any single append that returned, a read
    that returns shows at most [2 * HISTORY_TURNS] turns of that user. *)
Theorem history_window (HISTORY_TURNS : Z) (uid : Z)
    (turns : list (Role * string)) (d : Database) (w : World) :
  0 ≤ HISTORY_TURNS →
  wf_db d →
  ready d w →
  2 * HISTORY_TURNS < Z.of_nat (length turns) →
  (∃ w1 w2 h,
     append_turns HISTORY_TURNS uid turns w = (Ok tt, w1) ∧
     get_history uid w1 = (Ok h, w2) ∧
     h = drop (length turns - Z.to_nat (2 * HISTORY_TURNS)) turns ∧
     Z.of_nat (length h) = 2 * HISTORY_TURNS) ∧
  (∀ r c w' wa h' wb,
     (∀ d', file_db w' = Some d' → wf_db d') →
     add_msg HISTORY_TURNS uid r c w' = (Ok tt, wa) →
     get_history uid wa = (Ok h', wb) →
     Z.of_nat (length h') ≤ 2 * HISTORY_TURNS).
Proof.
  intros Hpos Hwf Hr Hlen. split.
  - destruct (append_turns_ready HISTORY_TURNS uid turns d w Hwf Hr)
      as (d' & Hrun & Hwf' & _ & _ & Hhist).
    assert (turns ≠ []) as Hne by (intros ->; simpl in Hlen; lia).
    eexists _, _, _. split; [exact Hrun|].
    split; [by apply get_history_ready, (ready_set_file_db d)|].
    rewrite (Hhist Hne).
    assert (cap HISTORY_TURNS = Z.to_nat (2 * HISTORY_TURNS)) as Hcap
      by (unfold cap; f_equal; lia).
    rewrite lastn_app_r by (rewrite Hcap; lia).
    unfold lastn. rewrite Hcap. split; [done|].
    rewrite length_drop. lia.
  - intros r c w' wa h' wb Hwf' Hadd Hread.
    pose proof (add_then_history_bound _ _ _ _ _ _ _ _ Hwf' Hadd Hread) as Hb.
    unfold cap in Hb. lia.
Qed.

(** An instance: a window of two turns, three turns appended for user 42
    of the sample data. *)
Lemma history_window_witness :
  (0 ≤ 1 ∧ wf_db sample_db ∧ ready sample_db sample_world ∧
   2 * 1 < Z.of_nat (length [(RoleUser, "a"); (RoleAssistant, "b"); (RoleUser, "c")])) ∧
  ∃ w1 w2,
    append_turns 1 42 [(RoleUser, "a"); (RoleAssistant, "b"); (RoleUser, "c")]
      sample_world = (Ok tt, w1) ∧
    get_history 42 w1 = (Ok [(RoleAssistant, "b"); (RoleUser, "c")], w2).
Proof.
  split.
  { split; [lia|]. split; [exact sample_db_wf|].
    split; [exact sample_world_ready|]. simpl. lia. }
  destruct (history_window 1 42
              [(RoleUser, "a"); (RoleAssistant, "b"); (RoleUser, "c")]
              sample_db sample_world ltac:(lia) sample_db_wf
              sample_world_ready ltac:(simpl; lia))
    as [(w1 & w2 & h & Hrun & Hread & Hh & _) _].
  exists w1, w2. split; [exact Hrun|]. rewrite Hread, Hh. reflexivity.
Defined.

(** C1 as stated fails for a negative [HISTORY_TURNS]: with [HISTORY_TURNS
    = -1] the offset of the trimming query is negative, SQLite reads it as
    zero and the append deletes every turn of the user, the new one
    included. One turn is more than [2 * -1] turns, yet the history then
    holds zero turns, which is neither exactly [2 * -1] nor at most
    [2 * -1]. *)
Lemma history_window_negative_turns :
  2 * -1 < Z.of_nat (length [(RoleUser, "a")]) ∧
  ∃ w1 w2 h,
    append_turns (-1) 42 [(RoleUser, "a")] sample_world = (Ok tt, w1) ∧
    get_history 42 w1 = (Ok h, w2) ∧
    h = [] ∧
    Z.of_nat (length h) ≠ 2 * -1 ∧
    ¬ (Z.of_nat (length h) ≤ 2 * -1).
Proof.
  split; [simpl; lia|].
  eexists _, _, _. split; [reflexivity|]. split; [reflexivity|].
  split; [reflexivity|]. simpl. lia.
Qed.

(** ** What a storage call can do to the file *)

Lemma transaction_file_db {T}
    (stmts : option Database → outcome T * option Database) w :
  file_db (transaction stmts w).2 = file_db w ∨
  (DB_URI w = false ∧
   ∃ v d', stmts (file_db w) = (Ok v, d') ∧ file_db (transaction stmts w).2 = d').
Proof.
  unfold transaction.
  destruct (db_faults w) as [|[e|] rest]; simpl; auto;
    (destruct (DB_URI w) eqn:Huri; simpl; [by left|]);
    (destruct (stmts (file_db w)) as [[v|e] d'] eqn:Hs; simpl; [right|by left]);
    eauto.
Qed.

Lemma transaction_memory_file_db {T}
    (stmts : option Database → outcome T * option Database) w :
  DB_URI w = true → file_db (transaction stmts w).2 = file_db w.
Proof.
  intros Huri. destruct (transaction_file_db stmts w) as [?|[? _]];
    [done|congruence].
Qed.

Lemma transaction_raise_file_db {T}
    (stmts : option Database → outcome T * option Database) w e w1 :
  transaction stmts w = (Raise e, w1) → file_db w1 = file_db w.
Proof.
  unfold transaction.
  destruct (db_faults w) as [|[e'|] rest]; simpl;
    try (by intros [= _ <-]);
    (destruct (DB_URI w) eqn:Huri; simpl; [by intros [= _ <-]|]);
    destruct (stmts (file_db w)) as [[v|e''] d']; simpl;
    by intros [= _ <-] || by intros [=].
Qed.

(** A property of the file that the statements keep is kept by the wrapped
    call, whether it returns, raises or falls back. *)
Lemma db_try_preserves {T} (P : option Database → Prop)
    (stmts : World → option Database → outcome T * option Database) w :
  (∀ w0 od v od', P od → stmts w0 od = (Ok v, od') → P od') →
  P (file_db w) →
  P (file_db (_db_try (λ w, transaction (stmts w) w) w).2).
Proof.
  intros Hkeep HP. unfold _db_try.
  destruct (transaction (stmts w) w) as [[v|e] w1] eqn:Hrun.
  - pose proof (transaction_file_db (stmts w) w) as Hf.
    rewrite Hrun in Hf. simpl in *.
    destruct Hf as [->|(_ & v' & d' & Hs & ->)]; eauto.
  - apply transaction_raise_file_db in Hrun as Hf.
    destruct (io_class e); [|simpl; by rewrite Hf].
    destruct (DB_URI w1); simpl; [by rewrite Hf|].
    rewrite transaction_memory_file_db by done. simpl. by rewrite Hf.
Qed.

(** ** The counter *)

Lemma users_set_users u d : users (set_users u d) = u.
Proof. done. Qed.

Lemma counters_ok_get uid name date d :
  counters_ok d → counters_ok (_get uid name date d).2.
Proof.
  intros Hok. unfold _get.
  destruct (users d !! uid) as [row|] eqn:Hrow; [case_decide; [done|]|];
    simpl; intros u r; rewrite users_set_users, lookup_insert;
    (case_decide; [intros [= <-]; exists 0; by split|apply Hok]).
Qed.

Lemma counters_ok_inc uid d : counters_ok d → counters_ok (_inc uid d).2.
Proof.
  intros Hok u r. unfold _inc. cbn [snd]. rewrite users_set_users, lookup_alter.
  case_decide; [|apply Hok]. subst u.
  destruct (users d !! uid) as [row|] eqn:Hrow; [|done].
  intros [= <-]. destruct (Hok _ _ Hrow) as (n & Hn & Hpos).
  exists (n + 1). simpl. rewrite Hn. simpl. split; [done|lia].
Qed.

Lemma on_tables_ok_inv {T} (stmt : Database → T * Database) od v od' :
  on_tables stmt od = (Ok v, od') → ∃ d, od = Some d ∧ od' = Some (stmt d).2.
Proof.
  destruct od as [d|]; simpl; [|done].
  destruct (stmt d) as [v' d'] eqn:Hs. intros [= _ <-].
  exists d. by rewrite Hs.
Qed.

Lemma run_event_counters_ok HISTORY_TURNS w ev :
  world_counters_ok w → world_counters_ok (run_event HISTORY_TURNS w ev).
Proof.
  intros Hok.
  assert (∀ T (stmt : World → Database → T * Database),
            (∀ w0 d, counters_ok d → counters_ok (stmt w0 d).2) →
            world_counters_ok
              (_db_try (λ w, transaction (on_tables (stmt w)) w) w).2) as Hcall.
  { intros T stmt Hstmt. unfold world_counters_ok.
    apply (db_try_preserves (λ od, ∀ d, od = Some d → counters_ok d)
             (λ w, on_tables (stmt w))); [|exact Hok].
    intros w0 od v od' HP (d0 & -> & ->)%on_tables_ok_inv d [= <-]. eauto. }
  destruct ev as [|uid name|uid|uid r c|uid|uid|date faults]; simpl.
  - unfold world_counters_ok, init_db, _init.
    apply (db_try_preserves (λ od, ∀ d, od = Some d → counters_ok d)
             (λ _ od, (Ok tt, Some (default empty_db od)))); [|exact Hok].
    intros _ od v od' HP Heq d Hd.
    assert (Some (default empty_db od) = Some d) as Hd' by congruence.
    apply (inj Some) in Hd' as <-.
    destruct od as [d0|]; simpl; [by apply HP|].
    intros u r. unfold empty_db. simpl. by rewrite lookup_empty.
  - apply (Hcall _ (λ w, _get uid name (today w))).
    intros. by apply counters_ok_get.
  - apply (Hcall _ (λ _, _inc uid)). intros. by apply counters_ok_inc.
  - by apply (Hcall _ (λ _, _add HISTORY_TURNS uid r c)).
  - by apply (Hcall _ (λ _, _hist uid)).
  - by apply (Hcall _ (λ _, _do_reset uid)).
  - exact Hok.
Qed.



(** ** The prompt and the reply *)

Lemma foldl_snoc_fmap {A B} (f : A → B) (l : list A) : ∀ acc,
  foldl (λ acc x, acc ++ [f x]) acc l = acc ++ (f <$> l).
Proof.
  induction l as [|x l IH]; intros acc; simpl.
  - by rewrite app_nil_r.
  - by rewrite IH, <-app_assoc.
Qed.

(** The list built by successive appends is the list in the order the
    specification gives. *)
Lemma prompt_messages_order history user_text name :
  prompt_messages history user_text name = prompt_in_order history user_text name.
Proof.
  unfold prompt_messages, prompt_in_order.
  rewrite foldl_snoc_fmap.
  destruct name as [n|]; simpl; [|done].
  unfold name_note. case_bool_decide as Hn; simpl.
  - by rewrite decide_False.
  - by rewrite decide_True by by destruct (decide (n = "")).
Qed.

Section Reply.
Context (provider : option (list ChatMessage → completion))
        (str_strip : string → string).

Lemma get_history_file_db uid w : file_db (get_history uid w).2 = file_db w.
Proof.
  unfold get_history.
  apply (db_try_preserves (λ od, od = file_db w) (λ _, on_tables (_hist uid)));
    [|done].
  intros _ od v od' -> (d & Hd & ->)%on_tables_ok_inv. by rewrite Hd.
Qed.

Lemma _openai_reply_file_db messages w :
  file_db (_openai_reply provider str_strip messages w).2 = file_db w.
Proof.
  unfold _openai_reply. destruct provider as [create|]; [|done].
  by destruct (create messages).
Qed.

Lemma generate_reply_file_db uid user_text name w :
  file_db (generate_reply provider str_strip uid user_text name w).2 = file_db w.
Proof.
  unfold generate_reply, mbind, M_bind, bind.
  pose proof (get_history_file_db uid w) as Hh.
  destruct (get_history uid w) as [[h|e] w1]; simpl in *; [|done].
  by rewrite _openai_reply_file_db.
Qed.

Lemma generate_reply_after_history uid user_text name w h w1 :
  get_history uid w = (Ok h, w1) →
  generate_reply provider str_strip uid user_text name w =
  _openai_reply provider str_strip (prompt_in_order h user_text name) w1.
Proof.
  intros Hh. unfold generate_reply, mbind, M_bind, bind.
  by rewrite Hh, prompt_messages_order.
Qed.
End Reply.

(** C9. When the history read returns [h], [generate_reply] hands the
    provider exactly this list: the system prompt, then the note with the
    display name if and only if the name is known, then the turns of [h] in
    their order, then the new user message; the reply is what
    [_openai_reply] makes of the provider's answer to it. Whatever the
    provider, the world and the outcome, the call leaves the tables of the
    file as they were. *)
Theorem generate_reply_prompt
    (provider : option (list ChatMessage → completion))
    (str_strip : string → string) (uid : Z) (user_text : string)
    (name : option string) (h : list (Role * string)) (w w1 : World) :
  get_history uid w = (Ok h, w1) →
  prompt_messages h user_text name =
    [mkMessage "system" SYSTEM_PROMPT] ++
    name_note name ++
    ((λ turn, mkMessage (role_name turn.1) turn.2) <$> h) ++
    [mkMessage "user" user_text] ∧
  (∀ create, provider = Some create →
     generate_reply provider str_strip uid user_text name w =
     match create (prompt_in_order h user_text name) with
     | Completed answer => (Ok (str_strip (default "" answer)), w1)
     | Failed e =>
         (Ok provider_apology, write_log (LogException "OpenAI error: %s" e) w1)
     end) ∧
  (∀ w', file_db (generate_reply provider str_strip uid user_text name w').2
         = file_db w').
Proof.
  intros Hh. split; [apply prompt_messages_order|]. split.
  - intros create ->.
    rewrite (generate_reply_after_history _ _ _ _ _ _ _ _ Hh).
    unfold _openai_reply.
    by destruct (create (prompt_in_order h user_text name)).
  - intros w'. apply generate_reply_file_db.
Qed.

(** An instance: user 42 of the sample data, who has two turns, and a
    provider that answers with the number of messages it was given. *)
Lemma generate_reply_prompt_witness :
  get_history 42 sample_world =
    (Ok [(RoleUser, "hello"); (RoleAssistant, "ok")], sample_world) ∧
  prompt_messages [(RoleUser, "hello"); (RoleAssistant, "ok")] "again"
    (Some "tester") =
    [mkMessage "system" SYSTEM_PROMPT;
     mkMessage "system" "User telegram username is @tester.";
     mkMessage "user" "hello";
     mkMessage "assistant" "ok";
     mkMessage "user" "again"] ∧
  generate_reply
    (Some (λ msgs, Completed (Some (if decide (length msgs = 5%nat)
                                    then " five " else "other"))))
    py_strip 42 "again" (Some "tester") sample_world =
  (Ok "five", sample_world).
Proof.
  split; [reflexivity|].
  destruct (generate_reply_prompt
              (Some (λ msgs, Completed (Some (if decide (length msgs = 5%nat)
                                              then " five " else "other"))))
              py_strip 42 "again" (Some "tester")
              [(RoleUser, "hello"); (RoleAssistant, "ok")]
              sample_world sample_world eq_refl) as (Horder & Hcall & _).
  split; [exact Horder|]. exact (Hcall _ eq_refl).
Defined.

(** ** The fallback reply *)

Lemma string_app_cons a (s t : string) :
  String.String a s +:+ t = String.String a (s +:+ t).
Proof. done. Qed.

Lemma string_app_nil_r (s : string) : s +:+ "" = s.
Proof.
  induction s as [|a s IH]; [done|]. by rewrite string_app_cons, IH.
Qed.

Lemma prefix_app (sub post : string) : String.prefix sub (sub +:+ post) = true.
Proof.
  induction sub as [|a sub IH]; [by destruct post|].
  rewrite string_app_cons. simpl. by destruct (Ascii.ascii_dec a a).
Qed.

(** The search finds every occurrence. *)
Lemma find_sub_complete sub s : contains sub s → find_sub sub s = true.
Proof.
  intros (pre & post & ->).
  induction pre as [|a pre IH].
  - change ("" +:+ sub +:+ post) with (sub +:+ post).
    pose proof (prefix_app sub post) as Hp.
    destruct (sub +:+ post); cbn [find_sub]; by rewrite Hp.
  - rewrite string_app_cons. cbn [find_sub]. rewrite IH. apply orb_true_r.
Qed.

Lemma contains_suffix (pre sub : string) : contains sub (pre +:+ sub).
Proof. exists pre, "". by rewrite string_app_nil_r. Qed.

(** The last message of the prompt with the role [user] is the new one. *)
Lemma prompt_last_user_message h user_text name :
  head (filter (λ m, msg_role m = "user")
          (reverse (prompt_in_order h user_text name)))
  = Some (mkMessage "user" user_text).
Proof.
  unfold prompt_in_order. rewrite !app_assoc, reverse_snoc.
  by rewrite filter_cons_True.
Qed.

Lemma stub_reply_not_empty user_text : stub_prefix +:+ user_text ≠ "".
Proof. done. Qed.

(** C5, amended. When the history read returns: without a provider,
    [generate_reply] returns, as a value, the fixed stub head followed by
    the user's text, a non-empty string fixed by that text and containing
    it; when the call to the provider raises, it returns, as a value, one
    fixed non-empty apology, whatever the user's text. *)
Theorem fallback_reply (str_strip : string → string) (uid : Z)
    (user_text : string) (name : option string) (h : list (Role * string))
    (w w1 : World) :
  get_history uid w = (Ok h, w1) →
  (generate_reply None str_strip uid user_text name w =
     (Ok (stub_prefix +:+ user_text), w1) ∧
   stub_prefix +:+ user_text ≠ "" ∧
   contains user_text (stub_prefix +:+ user_text)) ∧
  (∀ create e,
     create (prompt_messages h user_text name) = Failed e →
     generate_reply (Some create) str_strip uid user_text name w =
       (Ok provider_apology, write_log (LogException "OpenAI error: %s" e) w1) ∧
     provider_apology ≠ "").
Proof.
  intros Hh. split.
  - rewrite (generate_reply_after_history _ _ _ _ _ _ _ _ Hh).
    unfold _openai_reply. rewrite prompt_last_user_message. simpl.
    split; [done|]. split; [apply stub_reply_not_empty|].
    apply contains_suffix.
  - intros create e Hfail.
    rewrite (generate_reply_after_history _ _ _ _ _ _ _ _ Hh).
    unfold _openai_reply.
    rewrite prompt_messages_order in Hfail. by rewrite Hfail.
Qed.

(** An instance: user 42 of the sample data, first without a provider,
    then with one that always raises. *)
Lemma fallback_reply_witness :
  get_history 42 sample_world =
    (Ok [(RoleUser, "hello"); (RoleAssistant, "ok")], sample_world) ∧
  generate_reply None py_strip 42 "how are you?" (Some "tester") sample_world =
    (Ok (stub_prefix +:+ "how are you?"), sample_world) ∧
  contains "how are you?" (stub_prefix +:+ "how are you?") ∧
  generate_reply (Some (λ _, Failed (OtherError "APIConnectionError")))
    py_strip 42 "how are you?" (Some "tester") sample_world =
    (Ok provider_apology,
     write_log (LogException "OpenAI error: %s" (OtherError "APIConnectionError"))
       sample_world).
Proof.
  split; [reflexivity|].
  destruct (fallback_reply py_strip 42 "how are you?" (Some "tester")
              [(RoleUser, "hello"); (RoleAssistant, "ok")]
              sample_world sample_world eq_refl)
    as ((Hstub & _ & Hecho) & Hfail).
  split; [exact Hstub|]. split; [exact Hecho|].
  exact (proj1 (Hfail (λ _, Failed (OtherError "APIConnectionError"))
                  (OtherError "APIConnectionError") eq_refl)).
Defined.

(** C5 as stated fails when the provider is configured and its call
    raises: the reply is the fixed apology, which does not contain the
    user's text. *)
Lemma provider_failure_reply_has_no_echo :
  generate_reply (Some (λ _, Failed (OtherError "APIConnectionError")))
    py_strip 42 "how are you?" (Some "tester") sample_world =
    (Ok provider_apology,
     write_log (LogException "OpenAI error: %s" (OtherError "APIConnectionError"))
       sample_world) ∧
  ¬ contains "how are you?" provider_apology.
Proof.
  split; [reflexivity|].
  intros Hc. apply find_sub_complete in Hc. by vm_compute in Hc.
Qed.

(** ** One exchange *)

Lemma same_env_trans w1 w2 w3 : same_env w1 w2 → same_env w2 w3 → same_env w1 w3.
Proof. unfold same_env. intros (?&?&?&?&?&?) (?&?&?&?&?&?). repeat split; congruence. Qed.

Lemma same_env_set_file_db d w : same_env w (set_file_db d w).
Proof. by repeat split. Qed.

Lemma ready_same_env d w w' :
  ready d w → same_env w w' → file_db w' = Some d → ready d w'.
Proof. intros (?&?&?) (?&?&?&?&?&?) ?. repeat split; congruence. Qed.

Lemma _get_result uid name date d :
  (_get uid name date d).1 = (uid, counter_read uid date d, Some date).
Proof.
  unfold counter_read, _get.
  destruct (users d !! uid) as [row|]; [|done].
  case_decide as Hd; [|done]. simpl. by rewrite Hd.
Qed.

Lemma _get_convo uid name date d : convo (_get uid name date d).2 = convo d.
Proof.
  unfold _get. destruct (users d !! uid) as [row|]; [|done]. by case_decide.
Qed.

(** After [get_user] the row of the user is dated today and holds the
    counter that was read. *)
Lemma _get_row uid name date d :
  ∃ row, users (_get uid name date d).2 !! uid = Some row ∧
         messages_today row = counter_read uid date d ∧
         last_reset row = Some date.
Proof.
  unfold counter_read, _get.
  destruct (users d !! uid) as [row|] eqn:Hrow.
  - case_decide as Hd; cbn [fst snd].
    + by exists row.
    + rewrite users_set_users, lookup_insert_eq. by eexists.
  - cbn [fst snd]. rewrite users_set_users, lookup_insert_eq. by eexists.
Qed.

Lemma _get_again uid name name' date d :
  _get uid name' date (_get uid name date d).2 =
  ((uid, counter_read uid date d, Some date), (_get uid name date d).2).
Proof.
  destruct (_get_row uid name date d) as (row & Hrow & Hc & Hd).
  unfold _get at 1. rewrite Hrow, decide_True by done. by rewrite Hc, Hd.
Qed.

Lemma counter_read_after_get uid name date d :
  counter_read uid date (_get uid name date d).2 = counter_read uid date d.
Proof.
  unfold counter_read at 1. by rewrite (_get_again uid name None).
Qed.

Lemma counter_read_row uid date d row :
  users d !! uid = Some row → last_reset row = Some date →
  counter_read uid date d = messages_today row.
Proof.
  intros Hrow Hd. unfold counter_read, _get.
  by rewrite Hrow, decide_True.
Qed.

(** An increment after a read raises what the next read sees by one. *)
Lemma counter_read_after_inc uid name date d d' c :
  counter_read uid date d = Some c →
  users d' = alter bump uid (users (_get uid name date d).2) →
  counter_read uid date d' = Some (c + 1).
Proof.
  intros Hc Hu.
  destruct (_get_row uid name date d) as (row & Hrow & Hm & Hd).
  rewrite (counter_read_row uid date d' (bump row)).
  - simpl. by rewrite Hm, Hc.
  - by rewrite Hu, lookup_alter_eq, Hrow.
  - done.
Qed.

(** Every table the storage calls produce is key-ordered. *)
Lemma run_event_wf HISTORY_TURNS w ev :
  (∀ d, file_db w = Some d → wf_db d) →
  ∀ d, file_db (run_event HISTORY_TURNS w ev) = Some d → wf_db d.
Proof.
  intros Hok.
  assert (∀ T (stmt : World → Database → T * Database),
            (∀ w0 d, wf_db d → wf_db (stmt w0 d).2) →
            ∀ d, file_db (_db_try (λ w, transaction (on_tables (stmt w)) w) w).2
                 = Some d → wf_db d) as Hcall.
  { intros T stmt Hstmt.
    apply (db_try_preserves (λ od, ∀ d, od = Some d → wf_db d)
             (λ w, on_tables (stmt w))); [|exact Hok].
    intros w0 od v od' HP (d0 & -> & ->)%on_tables_ok_inv d [= <-]. eauto. }
  destruct ev as [|uid name|uid|uid r c|uid|uid|date faults]; simpl.
  - unfold init_db, _init.
    apply (db_try_preserves (λ od, ∀ d, od = Some d → wf_db d)
             (λ _ od, (Ok tt, Some (default empty_db od)))); [|exact Hok].
    intros _ od v od' HP Heq d Hd.
    assert (Some (default empty_db od) = Some d) as Hd' by congruence.
    apply (inj Some) in Hd' as <-.
    destruct od as [d0|]; simpl; [by apply HP|]. constructor.
  - apply (Hcall _ (λ w, _get uid name (today w))).
    intros w0 d Hd. unfold wf_db. by rewrite _get_convo.
  - by apply (Hcall _ (λ _, _inc uid)).
  - apply (Hcall _ (λ _, _add HISTORY_TURNS uid r c)).
    intros. by apply _add_wf.
  - by apply (Hcall _ (λ _, _hist uid)).
  - apply (Hcall _ (λ _, _do_reset uid)).
    intros w0 d Hd. by apply sorted_filter.
  - exact Hok.
Qed.

Section Exchange.
Context (FREE_MESSAGES_PER_DAY HISTORY_TURNS : Z)
        (provider : option (list ChatMessage → completion))
        (str_strip : string → string).

Lemma _openai_reply_same_env messages w :
  ∃ reply w', _openai_reply provider str_strip messages w = (Ok reply, w') ∧
              same_env w w' ∧ file_db w' = file_db w.
Proof.
  unfold _openai_reply. destruct provider as [create|].
  - destruct (create messages); eexists _, _; by repeat split.
  - eexists _, _; by repeat split.
Qed.

(** The four steps of a served message, followed by whatever the transport
    does with the reply. *)
Lemma exchange_ready {T} (k : string → M T) uid user_text name d w :
  ready d w →
  ∃ reply d' w',
    (add_msg HISTORY_TURNS uid RoleUser user_text;;
     reply ← generate_reply provider str_strip uid user_text name;
     add_msg HISTORY_TURNS uid RoleAssistant reply;;
     inc_user_counter uid;;
     k reply) w = k reply w' ∧
    ready d' w' ∧ same_env w w' ∧
    users d' = alter bump uid (users d) ∧
    (wf_db d → wf_db d').
Proof.
  intros Hr. unfold mbind, M_bind, bind.
  rewrite (add_msg_ready _ _ _ _ d) by done.
  set (d1 := (_add HISTORY_TURNS uid RoleUser user_text d).2).
  assert (ready d1 (set_file_db (Some d1) w)) as Hr1
    by by apply (ready_set_file_db d).
  rewrite (generate_reply_after_history _ _ _ _ _ _ _ _
             (get_history_ready uid d1 _ Hr1)).
  rewrite set_file_db_twice.
  destruct (_openai_reply_same_env
              (prompt_in_order (_hist uid d1).1 user_text name)
              (set_file_db (Some d1) w)) as (reply & w2 & -> & Henv & Hfile).
  assert (ready d1 w2) as Hr2 by by eapply ready_same_env.
  rewrite (add_msg_ready _ _ _ _ d1) by done.
  set (d2 := (_add HISTORY_TURNS uid RoleAssistant reply d1).2).
  assert (ready d2 (set_file_db (Some d2) w2)) as Hr3
    by by apply (ready_set_file_db d1).
  rewrite (inc_user_counter_ready _ d2) by done.
  rewrite set_file_db_twice.
  exists reply, (_inc uid d2).2, (set_file_db (Some (_inc uid d2).2) w2).
  split; [done|]. split; [by apply (ready_set_file_db d1)|].
  split; [|split; [done|]].
  - eapply same_env_trans; [apply (same_env_set_file_db (Some d1))|].
    eapply same_env_trans; [exact Henv|apply same_env_set_file_db].
  - intros Hwf. change (wf_db d2). by do 2 apply _add_wf.
Qed.
End Exchange.

(** ** Running a handler step by step *)

Lemma bind_ok {T U} (m : M T) (k : T → M U) w v w1 :
  m w = (Ok v, w1) → (m ≫= k) w = k v w1.
Proof. intros Hm. unfold mbind, M_bind, bind. by rewrite Hm. Qed.

Lemma bind_raise {T U} (m : M T) (k : T → M U) w e w1 :
  m w = (Raise e, w1) → (m ≫= k) w = (Raise e, w1).
Proof. intros Hm. unfold mbind, M_bind, bind. by rewrite Hm. Qed.

Lemma try_except_ok {T} (m : M T) handler w v w1 :
  m w = (Ok v, w1) → try_except m handler w = (Ok v, w1).
Proof. intros Hm. unfold try_except. by rewrite Hm. Qed.

Lemma try_except_raise {T} (m : M T) handler w e w1 :
  m w = (Raise e, w1) → try_except m handler w = handler e w1.
Proof. intros Hm. unfold try_except. by rewrite Hm. Qed.

Lemma send_message_ok body w :
  net_faults w = [] → send_message body w = (Ok tt, deliver body w).
Proof. intros Hn. case_world w. subst. done. Qed.

Lemma reply_text_ok upd msg body w :
  message upd = Some msg → net_faults w = [] →
  reply_text upd body w = (Ok tt, deliver body w).
Proof.
  intros Hm Hn. unfold reply_text. rewrite Hm.
  erewrite bind_ok; [|reflexivity]. by apply send_message_ok.
Qed.

Lemma ready_deliver d body w : ready d w → ready d (deliver body w).
Proof. by intros (?&?&?). Qed.

Section Handlers.
Context (FREE_MESSAGES_PER_DAY HISTORY_TURNS : Z)
        (provider : option (list ChatMessage → completion))
        (str_strip : string → string).

Local Abbreviation tg_text :=
  (_tg_text FREE_MESSAGES_PER_DAY HISTORY_TURNS provider str_strip).
Local Abbreviation turn :=
  (local_turn FREE_MESSAGES_PER_DAY HISTORY_TURNS provider str_strip).
Local Abbreviation tg_queue :=
  (handle_updates FREE_MESSAGES_PER_DAY HISTORY_TURNS provider str_strip).
Local Abbreviation console :=
  (session_loop FREE_MESSAGES_PER_DAY HISTORY_TURNS provider str_strip).

(** A user at or over the limit: the paywall text and nothing else. *)
Lemma _tg_text_blocked upd u msg d w used :
  effective_user upd = Some u → message upd = Some msg →
  ready d w → net_faults w = [] →
  counter_read (tg_id u) (today w) d = Some used →
  FREE_MESSAGES_PER_DAY ≤ used →
  tg_text upd w =
  (Ok tt, deliver (PAYWALL_HOOK (tg_id u))
            (set_file_db (Some (_get (tg_id u) (tg_username u) (today w) d).2) w)).
Proof.
  intros Hu Hm Hr Hn Hc Hle. unfold _tg_text.
  apply try_except_ok. rewrite Hu.
  erewrite bind_ok; [|reflexivity].
  erewrite bind_ok; [|by apply (get_user_ready _ _ d)].
  rewrite _get_result, Hc. cbv beta iota.
  erewrite bind_ok; [|reflexivity].
  rewrite bool_decide_eq_true_2 by done.
  by apply (reply_text_ok _ msg).
Qed.

(** A user under the limit: one exchange, one reply, the counter up by one. *)
Lemma _tg_text_served upd u msg d w c :
  effective_user upd = Some u → message upd = Some msg →
  ready d w → net_faults w = [] →
  counter_read (tg_id u) (today w) d = Some c →
  c < FREE_MESSAGES_PER_DAY →
  ∃ reply d' w',
    tg_text upd w = (Ok tt, w') ∧
    ready d' w' ∧ net_faults w' = [] ∧ today w' = today w ∧
    outbox w' = outbox w ++ [reply] ∧
    counter_read (tg_id u) (today w) d' = Some (c + 1) ∧
    (wf_db d → wf_db d').
Proof.
  intros Hu Hm Hr Hn Hc Hlt.
  set (d1 := (_get (tg_id u) (tg_username u) (today w) d).2).
  destruct (exchange_ready HISTORY_TURNS provider str_strip
              (λ reply, reply_text upd reply) (tg_id u)
              (str_strip (default "" (text msg))) (tg_username u)
              d1 (set_file_db (Some d1) w))
    as (reply & d' & w' & Hex & Hr' & Henv & Husers & Hwf);
    [by apply (ready_set_file_db d)|].
  destruct Henv as (_ & _ & Hday & _ & Hnet & Hout).
  exists reply, d', (deliver reply w').
  split; [|split; [by apply ready_deliver|repeat split]].
  - unfold _tg_text. apply try_except_ok. rewrite Hu.
    erewrite bind_ok; [|reflexivity].
    erewrite bind_ok; [|by apply (get_user_ready _ _ d)].
    rewrite _get_result, Hc. cbv beta iota.
    erewrite bind_ok; [|reflexivity].
    rewrite bool_decide_eq_false_2 by lia.
    rewrite Hm. erewrite bind_ok; [|reflexivity].
    cbv zeta. fold d1. rewrite Hex.
    apply (reply_text_ok _ msg); [done|]. by rewrite Hnet.
  - simpl. by rewrite Hnet.
  - simpl. by rewrite Hday.
  - simpl. by rewrite Hout.
  - by apply (counter_read_after_inc _ (tg_username u) _ d).
  - intros Hd. apply Hwf. unfold wf_db, d1. by rewrite _get_convo.
Qed.

Lemma handle_updates_served uid upds : ∀ c d w,
  Forall (from_user uid) upds →
  ready d w → net_faults w = [] →
  counter_read uid (today w) d = Some c →
  c + Z.of_nat (length upds) ≤ FREE_MESSAGES_PER_DAY →
  ∃ replies d' w',
    tg_queue upds w = (Ok tt, w') ∧
    ready d' w' ∧ net_faults w' = [] ∧ today w' = today w ∧
    outbox w' = outbox w ++ replies ∧ length replies = length upds ∧
    counter_read uid (today w) d' = Some (c + Z.of_nat (length upds)) ∧
    (wf_db d → wf_db d').
Proof.
  induction upds as [|upd upds IH]; intros c d w Hall Hr Hn Hc Hle.
  - exists [], d, w. simpl. rewrite app_nil_r, Z.add_0_r.
    pose proof Hr as (?&?&?). by repeat split.
  - apply Forall_cons in Hall as [(u & msg & Hu & <- & Hm) Hall].
    simpl length in *.
    destruct (_tg_text_served upd u msg d w c Hu Hm Hr Hn Hc)
      as (reply & d1 & w1 & Hrun & Hr1 & Hn1 & Hday1 & Hout1 & Hc1 & Hwf1);
      [lia|].
    rewrite <-Hday1 in Hc1.
    destruct (IH (c + 1) d1 w1 Hall Hr1 Hn1 Hc1)
      as (replies & d' & w' & Hrun' & Hr' & Hn' & Hday' & Hout' & Hlen' & Hc' & Hwf');
      [lia|].
    exists (reply :: replies), d', w'.
    split; [|split; [done|split; [done|split; [congruence|split; [|split; [|split]]]]]].
    + simpl. erewrite bind_ok; [|exact Hrun]. exact Hrun'.
    + by rewrite Hout', Hout1, <-app_assoc.
    + simpl. by rewrite Hlen'.
    + rewrite <-Hday1, Hc'. f_equal. lia.
    + auto.
Qed.

Lemma local_turn_blocked raw d w used :
  chat_line str_strip raw → ready d w →
  counter_read fake_user_id (today w) d = Some used →
  FREE_MESSAGES_PER_DAY ≤ used →
  turn raw w =
  (Ok Continue,
   deliver ("lana> " +:+ PAYWALL_HOOK fake_user_id)
     (set_file_db
        (Some (_get fake_user_id (Some fake_username) (today w) d).2) w)).
Proof.
  intros (Hne & Hquit & Hreset) Hr Hc Hle. unfold local_turn. cbv zeta.
  rewrite !decide_False by done.
  erewrite bind_ok; [|by apply (get_user_ready _ _ d)].
  rewrite _get_result, Hc. cbv beta iota.
  erewrite bind_ok; [|reflexivity].
  by rewrite bool_decide_eq_true_2.
Qed.

Lemma local_turn_served raw d w c :
  chat_line str_strip raw → ready d w →
  counter_read fake_user_id (today w) d = Some c →
  c < FREE_MESSAGES_PER_DAY →
  ∃ reply d' w',
    turn raw w = (Ok Continue, w') ∧
    ready d' w' ∧ net_faults w' = net_faults w ∧ today w' = today w ∧
    outbox w' = outbox w ++ ["lana> " +:+ reply] ∧
    counter_read fake_user_id (today w) d' = Some (c + 1) ∧
    (wf_db d → wf_db d').
Proof.
  intros (Hne & Hquit & Hreset) Hr Hc Hlt.
  set (d1 := (_get fake_user_id (Some fake_username) (today w) d).2).
  destruct (exchange_ready HISTORY_TURNS provider str_strip
              (λ reply, print ("lana> " +:+ reply);; ret Continue)
              fake_user_id (str_strip raw) (Some fake_username)
              d1 (set_file_db (Some d1) w))
    as (reply & d' & w' & Hex & Hr' & Henv & Husers & Hwf);
    [by apply (ready_set_file_db d)|].
  destruct Henv as (_ & _ & Hday & _ & Hnet & Hout).
  exists reply, d', (deliver ("lana> " +:+ reply) w').
  split; [|split; [by apply ready_deliver|repeat split]].
  - unfold local_turn. cbv zeta. rewrite !decide_False by done.
    erewrite bind_ok; [|by apply (get_user_ready _ _ d)].
    rewrite _get_result, Hc. cbv beta iota.
    erewrite bind_ok; [|reflexivity].
    rewrite bool_decide_eq_false_2 by lia.
    fold d1. by rewrite Hex.
  - simpl. by rewrite Hnet.
  - simpl. by rewrite Hday.
  - simpl. by rewrite Hout.
  - by apply (counter_read_after_inc _ (Some fake_username) _ d).
  - intros Hd. apply Hwf. unfold wf_db, d1. by rewrite _get_convo.
Qed.

Lemma session_loop_served lines : ∀ c d w,
  Forall (chat_line str_strip) lines →
  ready d w →
  counter_read fake_user_id (today w) d = Some c →
  c + Z.of_nat (length lines) ≤ FREE_MESSAGES_PER_DAY →
  ∃ replies d' w',
    console lines w = (Ok tt, w') ∧
    ready d' w' ∧ net_faults w' = net_faults w ∧ today w' = today w ∧
    outbox w' = outbox w ++ replies ∧ length replies = length lines ∧
    counter_read fake_user_id (today w) d' = Some (c + Z.of_nat (length lines)) ∧
    (wf_db d → wf_db d').
Proof.
  induction lines as [|raw lines IH]; intros c d w Hall Hr Hc Hle.
  - exists [], d, w. simpl. rewrite app_nil_r, Z.add_0_r.
    pose proof Hr as (?&?&?). by repeat split.
  - apply Forall_cons in Hall as [Hraw Hall].
    simpl length in *.
    destruct (local_turn_served raw d w c Hraw Hr Hc)
      as (reply & d1 & w1 & Hrun & Hr1 & Hn1 & Hday1 & Hout1 & Hc1 & Hwf1);
      [lia|].
    rewrite <-Hday1 in Hc1.
    destruct (IH (c + 1) d1 w1 Hall Hr1 Hc1)
      as (replies & d' & w' & Hrun' & Hr' & Hn' & Hday' & Hout' & Hlen' & Hc' & Hwf');
      [lia|].
    exists (("lana> " +:+ reply) :: replies), d', w'.
    split; [|split; [done|split; [congruence|split; [congruence|split; [|split; [|split]]]]]].
    + simpl. erewrite bind_ok; [|exact Hrun]. exact Hrun'.
    + by rewrite Hout', Hout1, <-app_assoc.
    + simpl. by rewrite Hlen'.
    + rewrite <-Hday1, Hc'. f_equal. lia.
    + auto.
Qed.
End Handlers.

(** ** The paywall *)

Lemma _get_nonzero uid name date d used :
  counter_read uid date d = Some used → used ≠ 0 →
  (_get uid name date d).2 = d.
Proof.
  unfold counter_read, _get.
  destruct (users d !! uid) as [row|]; [case_decide|]; simpl;
    by (done || intros [= <-]).
Qed.



(** ** The reset command *)

Section Reset.
Context (FREE_MESSAGES_PER_DAY HISTORY_TURNS : Z)
        (provider : option (list ChatMessage → completion))
        (str_strip : string → string).

Lemma _tg_reset_ready upd u msg d w :
  effective_user upd = Some u → message upd = Some msg →
  ready d w → net_faults w = [] →
  _tg_reset upd w =
  (Ok tt, deliver reset_ack (set_file_db (Some (_do_reset (tg_id u) d).2) w)).
Proof.
  intros Hu Hm Hr Hn. unfold _tg_reset. apply try_except_ok. rewrite Hu.
  erewrite bind_ok; [|by apply (db_try_ready (_do_reset (tg_id u)) d)].
  by apply (reply_text_ok _ msg).
Qed.

Lemma local_turn_reset raw d w :
  str_strip raw = "/reset" → ready d w →
  local_turn FREE_MESSAGES_PER_DAY HISTORY_TURNS provider str_strip raw w =
  (Ok Continue,
   deliver "lana> Ок, начнём сначала ✨"
     (set_file_db (Some (_do_reset fake_user_id d).2) w)).
Proof.
  intros Hraw Hr. unfold local_turn. cbv zeta. rewrite Hraw.
  rewrite decide_False by done.
  rewrite decide_False
    by (rewrite !not_elem_of_cons; repeat split; try done; apply not_elem_of_nil).
  rewrite decide_True by done.
  erewrite bind_ok; [|by apply (clear_history_ready _ d)].
  done.
Qed.
End Reset.

Lemma counter_read_users uid date d d' :
  users d' = users d → counter_read uid date d' = counter_read uid date d.
Proof.
  intros Hu. unfold counter_read, _get. rewrite Hu.
  destruct (users d !! uid) as [row|]; [|done]. by case_decide.
Qed.



(** ** Failures inside the handling of a message *)

Section Failures.
Context (FREE_MESSAGES_PER_DAY HISTORY_TURNS : Z)
        (provider : option (list ChatMessage → completion))
        (str_strip : string → string).

(** The Telegram handler returns whatever happens inside it. *)
Lemma _tg_text_never_raises upd w :
  ∃ w', _tg_text FREE_MESSAGES_PER_DAY HISTORY_TURNS provider str_strip upd w
        = (Ok tt, w').
Proof.
  unfold _tg_text, try_except.
  match goal with |- context [match ?body w with _ => _ end] =>
    destruct (body w) as [[[]|e] w1] end; [by eexists|].
  match goal with |- context [match ?again ?w2 with _ => _ end] =>
    destruct (again w2) as [[[]|e'] w3] end; by eexists.
Qed.

(** When [get_user] raises, the handler logs the exception and, with the
    network up, sends its apology and nothing else. *)
Lemma _tg_text_apologises upd u msg w e w1 :
  effective_user upd = Some u → message upd = Some msg →
  get_user (tg_id u) (tg_username u) w = (Raise e, w1) →
  net_faults w1 = [] →
  _tg_text FREE_MESSAGES_PER_DAY HISTORY_TURNS provider str_strip upd w =
  (Ok tt, deliver text_apology
            (write_log (LogException "_tg_text error: %s" e) w1)).
Proof.
  intros Hu Hm Hget Hn. unfold _tg_text.
  erewrite try_except_raise.
  - apply try_except_ok. by apply (reply_text_ok _ msg).
  - rewrite Hu. erewrite bind_ok; [|reflexivity]. by apply bind_raise.
Qed.

(** The console loop has no handler: what a turn raises ends the loop. *)
Lemma session_loop_propagates raw rest w e w1 :
  local_turn FREE_MESSAGES_PER_DAY HISTORY_TURNS provider str_strip raw w
    = (Raise e, w1) →
  session_loop FREE_MESSAGES_PER_DAY HISTORY_TURNS provider str_strip
    (raw :: rest) w = (Raise e, w1).
Proof. intros Hturn. simpl. by apply bind_raise. Qed.
End Failures.

(** C6, on the code. The file gives one I/O error while the console
    session handles the line [hi]: [_db_try] falls back to the in-memory
    database, which has no tables, the retry raises, and nothing catches it:
    [run_local_session] ends with the exception, no apology printed and the
    rest of the input unread. The Telegram handler, in the same state and
    for the same text, logs the error and sends its apology. *)
Theorem console_loop_dies_where_telegram_apologises :
  (∃ w', run_local_session 15 16 None py_strip ["hi"; "still there?"]
           (set_db_faults [None; None; Some OSError] blank_world)
         = (Raise OperationalError, w') ∧
         outbox w' = []) ∧
  (∃ w', (init_db;;
          get_user 1 (Some "local_user");;
          _tg_text 15 16 None py_strip (text_update 1 (Some "local_user") "hi"))
           (set_db_faults [None; None; Some OSError] blank_world)
         = (Ok tt, w') ∧
         outbox w' = [text_apology]).
Proof. split; eexists; split; reflexivity. Qed.

(** * Further properties *)

(** ** Storage calls, one by one *)

Lemma alter_absent (f : UserRow → UserRow) uid (m : gmap Z UserRow) :
  m !! uid = None → alter f uid m = m.
Proof.
  intros Hnone. apply map_eq. intros u. rewrite lookup_alter.
  case_decide; [subst; by rewrite Hnone|done].
Qed.

(** X1. In file mode with the tables in place and no fault pending,
    [inc_user_counter] returns and changes at most one field of one row: for
    a user without a row the tables are exactly as before; for a user with a
    row the counter becomes the old one plus one, NULL counting as 0, while
    the name and the date of the row, the rows of all other users and every
    turn stay as they were. *)
Theorem inc_user_counter_touches_one_counter (uid : Z) (d : Database)
    (w : World) :
  ready d w →
  ∃ d',
    inc_user_counter uid w = (Ok tt, set_file_db (Some d') w) ∧
    convo d' = convo d ∧
    convo_seq d' = convo_seq d ∧
    (∀ u, u ≠ uid → users d' !! u = users d !! u) ∧
    match users d !! uid with
    | None => d' = d
    | Some row =>
        users d' !! uid =
          Some (mkUserRow (username row)
                  (Some (default 0 (messages_today row) + 1))
                  (last_reset row))
    end.
Proof.
  intros Hr. exists (_inc uid d).2.
  split; [by apply inc_user_counter_ready|].
  split; [done|]. split; [done|]. split.
  - intros u Hu. unfold _inc. cbn [snd].
    by rewrite users_set_users, lookup_alter_ne.
  - destruct (users d !! uid) as [row|] eqn:Hrow.
    + unfold _inc. cbn [snd].
      by rewrite users_set_users, lookup_alter_eq, Hrow.
    + unfold _inc, set_users. cbn [snd]. rewrite alter_absent by done.
      by destruct d.
Qed.

(** An instance: user 42 of the sample data, and user 99, who has no row. *)
Lemma inc_user_counter_touches_one_counter_witness :
  ready sample_db sample_world ∧
  (∃ d', inc_user_counter 42 sample_world = (Ok tt, set_file_db (Some d') sample_world) ∧
         users d' !! 42 = Some (mkUserRow (Some "tester") (Some 4) (Some day1))) ∧
  inc_user_counter 99 sample_world = (Ok tt, sample_world).
Proof.
  split; [exact sample_world_ready|]. split.
  - destruct (inc_user_counter_touches_one_counter 42 sample_db sample_world
                sample_world_ready) as (d' & Hrun & _ & _ & _ & Hrow).
    exists d'. split; [exact Hrun|exact Hrow].
  - reflexivity.
Defined.

Lemma init_db_file w :
  DB_URI w = false → db_faults w = [] →
  init_db w = (Ok tt, set_file_db (Some (default empty_db (file_db w))) w).
Proof. intros Huri Hf. case_world w. by subst. Qed.

Lemma init_db_keeps_any w d :
  file_db w = Some d → file_db (init_db w).2 = Some d.
Proof.
  intros Hd. unfold init_db, _init.
  apply (db_try_preserves (λ od, od = Some d)
           (λ _ od, (Ok tt, Some (default empty_db od)))); [|done].
  intros _ od v od' -> [= _ <-]. done.
Qed.



(** X3. In file mode with the tables in place and no fault pending, a
    second [get_user] for the same user on the same day, under whatever
    name, returns the triple the first one returned and leaves the tables as
    the first one left them: the rollover happens once. *)
Theorem get_user_twice (uid : Z) (name name' : option string) (d : Database)
    (w : World) :
  ready d w →
  ∃ r w1,
    get_user uid name w = (Ok r, w1) ∧
    get_user uid name' w1 = (Ok r, w1) ∧
    r = (uid, counter_read uid (today w) d, Some (today w)).
Proof.
  intros Hr.
  exists (_get uid name (today w) d).1,
         (set_file_db (Some (_get uid name (today w) d).2) w).
  split; [by apply get_user_ready|]. split; [|apply _get_result].
  rewrite (get_user_ready _ _ (_get uid name (today w) d).2)
    by by apply (ready_set_file_db d).
  change (today (set_file_db _ w)) with (today w).
  by rewrite _get_again, _get_result.
Qed.

(** An instance: user 42 of the sample data on the next day. *)
Lemma get_user_twice_witness :
  ready sample_db (mkWorld "/tmp/lana.db" false (Some sample_db) day2 [] [] [] []) ∧
  ∃ w1,
    get_user 42 (Some "tester")
      (mkWorld "/tmp/lana.db" false (Some sample_db) day2 [] [] [] []) =
      (Ok (42, Some 0, Some day2), w1) ∧
    get_user 42 None w1 = (Ok (42, Some 0, Some day2), w1).
Proof.
  split; [by repeat split|].
  destruct (get_user_twice 42 (Some "tester") None sample_db
              (mkWorld "/tmp/lana.db" false (Some sample_db) day2 [] [] [] []))
    as (r & w1 & H1 & H2 & ->); [by repeat split|].
  exists w1. split; [exact H1|exact H2].
Defined.

Lemma lastn_all {A} n (l : list A) : (length l ≤ n)%nat → lastn n l = l.
Proof.
  intros. unfold lastn. by replace (length l - n)%nat with 0%nat by lia.
Qed.





(** ** The in-memory mode *)

Lemma transaction_memory_raises {T} (stmt : Database → T * Database) w :
  DB_URI w = true → db_faults w = [] →
  transaction (on_tables stmt) w = (Raise OperationalError, w).
Proof. intros Huri Hf. case_world w. by subst. Qed.

Lemma db_try_memory_raises {T} (stmt : World → Database → T * Database) w :
  DB_URI w = true → db_faults w = [] →
  _db_try (λ w, transaction (on_tables (stmt w)) w) w
  = (Raise OperationalError, w).
Proof.
  intros Huri Hf. unfold _db_try.
  rewrite transaction_memory_raises by done. simpl. by rewrite Huri.
Qed.

(** X6. Once the process is in memory mode, with no further fault pending:
    [init_db] returns, yet each of [get_user], [inc_user_counter],
    [add_msg], [get_history] and the reset raises
    [sqlite3.OperationalError] and changes nothing, because every call opens
    and closes its own connection and the shared in-memory database lives
    only while a connection to it is open. *)
Theorem memory_mode_serves_nothing (HISTORY_TURNS : Z) (w : World) :
  DB_URI w = true →
  db_faults w = [] →
  init_db w = (Ok tt, w) ∧
  (∀ uid name, get_user uid name w = (Raise OperationalError, w)) ∧
  (∀ uid, inc_user_counter uid w = (Raise OperationalError, w)) ∧
  (∀ uid r c, add_msg HISTORY_TURNS uid r c w = (Raise OperationalError, w)) ∧
  (∀ uid, get_history uid w = (Raise OperationalError, w)) ∧
  (∀ uid, clear_history uid w = (Raise OperationalError, w)).
Proof.
  intros Huri Hf. split; [by case_world w; subst|].
  split; [intros uid name;
          by apply (db_try_memory_raises (λ w, _get uid name (today w)))|].
  split; [intros uid; by apply (db_try_memory_raises (λ _, _inc uid))|].
  split; [intros uid r c;
          by apply (db_try_memory_raises (λ _, _add HISTORY_TURNS uid r c))|].
  split; [intros uid; by apply (db_try_memory_raises (λ _, _hist uid))|].
  intros uid. by apply (db_try_memory_raises (λ _, _do_reset uid)).
Qed.

(** An instance: the sample process after one I/O error has switched it. *)
Lemma memory_mode_serves_nothing_witness :
  DB_URI (get_history 42 (set_db_faults [Some OSError] sample_world)).2 = true ∧
  db_faults (get_history 42 (set_db_faults [Some OSError] sample_world)).2 = [] ∧
  (init_db;; get_user 42 (Some "tester"))
    (get_history 42 (set_db_faults [Some OSError] sample_world)).2
  = (Raise OperationalError,
     (get_history 42 (set_db_faults [Some OSError] sample_world)).2).
Proof.
  split; [reflexivity|]. split; [reflexivity|].
  destruct (memory_mode_serves_nothing 16
              (get_history 42 (set_db_faults [Some OSError] sample_world)).2
              eq_refl eq_refl) as (Hinit & Hget & _).
  erewrite bind_ok; [|exact Hinit]. apply Hget.
Defined.

(** ** The handlers after a fallback *)

(** X7. Once the process is in memory mode, with no further fault pending
    and the network up, nobody is served any more: [_tg_text] answers a
    message with its storage apology and [_tg_reset] answers [/reset] with
    its own, both only adding a log record, and the console loop raises
    [sqlite3.OperationalError] on the first chat line. *)
Theorem memory_mode_only_apologises (FREE_MESSAGES_PER_DAY HISTORY_TURNS : Z)
    (provider : option (list ChatMessage → completion))
    (str_strip : string → string) (upd : Update) (u : TgUser)
    (msg : TgMessage) (w : World) :
  DB_URI w = true →
  db_faults w = [] →
  net_faults w = [] →
  effective_user upd = Some u →
  message upd = Some msg →
  _tg_text FREE_MESSAGES_PER_DAY HISTORY_TURNS provider str_strip upd w =
    (Ok tt, deliver text_apology
              (write_log (LogException "_tg_text error: %s" OperationalError) w)) ∧
  _tg_reset upd w =
    (Ok tt, deliver reset_apology
              (write_log (LogException "_tg_reset error: %s" OperationalError) w)) ∧
  (∀ raw, chat_line str_strip raw →
     local_turn FREE_MESSAGES_PER_DAY HISTORY_TURNS provider str_strip raw w
     = (Raise OperationalError, w)).
Proof.
  intros Huri Hf Hn Hu Hm.
  assert (∀ uid name, get_user uid name w = (Raise OperationalError, w))
    as Hget
    by (intros uid name;
        by apply (db_try_memory_raises (λ w, _get uid name (today w)))).
  assert (∀ uid, clear_history uid w = (Raise OperationalError, w)) as Hclear
    by (intros uid; by apply (db_try_memory_raises (λ _, _do_reset uid))).
  split; [|split].
  - by apply (_tg_text_apologises _ _ _ _ upd u msg).
  - unfold _tg_reset. erewrite try_except_raise.
    + apply try_except_ok. by apply (reply_text_ok _ msg).
    + apply bind_raise. rewrite Hu. apply (Hclear (tg_id u)).
  - intros raw (Hne & Hquit & Hreset). unfold local_turn. cbv zeta.
    rewrite !decide_False by done. by apply bind_raise.
Qed.

(** An instance: the sample process after one I/O error has switched it. *)
Lemma memory_mode_only_apologises_witness :
  DB_URI (get_history 42 (set_db_faults [Some OSError] sample_world)).2 = true ∧
  ∃ w',
    _tg_text 15 16 None py_strip (text_update 42 (Some "tester") "hello")
      (get_history 42 (set_db_faults [Some OSError] sample_world)).2
    = (Ok tt, w') ∧
    outbox w' = [text_apology] ∧
    file_db w' = Some sample_db.
Proof.
  split; [reflexivity|].
  destruct (memory_mode_only_apologises 15 16 None py_strip
              (text_update 42 (Some "tester") "hello")
              (mkTgUser 42 (Some "tester")) (mkTgMessage (Some "hello"))
              (get_history 42 (set_db_faults [Some OSError] sample_world)).2
              eq_refl eq_refl eq_refl eq_refl eq_refl) as (Htext & _).
  eexists. split; [exact Htext|]. by split.
Defined.

(** ** What the handlers never do *)

Lemma logging_handler_returns (body : M unit) fmt w :
  ∃ w', try_except body (λ e w, (Ok tt, write_log (LogException fmt e) w)) w
        = (Ok tt, w').
Proof.
  unfold try_except. destruct (body w) as [[[]|e] w1]; by eexists.
Qed.

Lemma apologising_handler_returns (body again : M unit) fmt w :
  ∃ w', try_except body
          (λ e w, try_except again (λ _, ret tt)
                    (write_log (LogException fmt e) w)) w
        = (Ok tt, w').
Proof.
  unfold try_except. destruct (body w) as [[[]|e] w1]; [by eexists|].
  destruct (again _) as [[[]|e'] w2]; by eexists.
Qed.


(** A storage call that raises leaves the file as it was. *)
Lemma db_try_raise_file_db {T}
    (stmts : World → option Database → outcome T * option Database) w e w1 :
  _db_try (λ w, transaction (stmts w) w) w = (Raise e, w1) →
  file_db w1 = file_db w.
Proof.
  unfold _db_try.
  destruct (transaction (stmts w) w) as [[v|e0] w0] eqn:Hrun; [done|].
  apply transaction_raise_file_db in Hrun as Hf.
  destruct (io_class e0); [|by intros [= _ <-]].
  destruct (DB_URI w0) eqn:Huri; simpl; [by intros [= _ <-]|].
  intros Hretry.
  pose proof (transaction_memory_file_db
                (stmts (fallback_world e0 w0)) (fallback_world e0 w0) eq_refl)
    as Hmem.
  unfold fallback_world in Hmem. rewrite Hretry in Hmem. simpl in Hmem.
  by rewrite Hmem.
Qed.

(** X9. Whatever the state of the process: when the deletion behind
    [/reset] raises, [_tg_reset] does not acknowledge; with the network up
    it logs the exception and sends its storage apology instead, and every
    table is as it was before the command. *)
Theorem failed_reset_is_not_acknowledged (upd : Update) (u : TgUser)
    (msg : TgMessage) (w w1 : World) (e : exn) :
  effective_user upd = Some u →
  message upd = Some msg →
  clear_history (tg_id u) w = (Raise e, w1) →
  net_faults w1 = [] →
  _tg_reset upd w =
    (Ok tt, deliver reset_apology
              (write_log (LogException "_tg_reset error: %s" e) w1)) ∧
  file_db w1 = file_db w.
Proof.
  intros Hu Hm Hclear Hn. split.
  - unfold _tg_reset. erewrite try_except_raise.
    + apply try_except_ok. by apply (reply_text_ok _ msg).
    + apply bind_raise. rewrite Hu. exact Hclear.
  - by apply (db_try_raise_file_db (λ _, on_tables (_do_reset (tg_id u))) w e).
Qed.

(** An instance: the file reports a corrupt image while user 42 resets. *)
Lemma failed_reset_is_not_acknowledged_witness :
  clear_history 42 (set_db_faults [Some (OtherError "DatabaseError")] sample_world)
    = (Raise (OtherError "DatabaseError"), sample_world) ∧
  ∃ w',
    _tg_reset (text_update 42 (Some "tester") "/reset")
      (set_db_faults [Some (OtherError "DatabaseError")] sample_world)
    = (Ok tt, w') ∧
    outbox w' = [reset_apology] ∧
    file_db w' = Some sample_db.
Proof.
  split; [reflexivity|].
  destruct (failed_reset_is_not_acknowledged
              (text_update 42 (Some "tester") "/reset")
              (mkTgUser 42 (Some "tester")) (mkTgMessage (Some "/reset"))
              (set_db_faults [Some (OtherError "DatabaseError")] sample_world)
              sample_world (OtherError "DatabaseError")
              eq_refl eq_refl eq_refl eq_refl) as (Hrun & _).
  eexists. split; [exact Hrun|]. by split.
Defined.

(** ** The commands [/stats] and [/start] *)

Section CommandFacts.
Context (FREE_MESSAGES_PER_DAY : Z).

Lemma _tg_stats_ready upd u msg d w used :
  effective_user upd = Some u → message upd = Some msg →
  ready d w → net_faults w = [] →
  counter_read (tg_id u) (today w) d = Some used →
  _tg_stats FREE_MESSAGES_PER_DAY upd w =
  (Ok tt,
   deliver (stats_text FREE_MESSAGES_PER_DAY
              (Z.max 0 (FREE_MESSAGES_PER_DAY - used)))
     (set_file_db (Some (_get (tg_id u) (tg_username u) (today w) d).2) w)).
Proof.
  intros Hu Hm Hr Hn Hc. unfold _tg_stats. apply try_except_ok. rewrite Hu.
  erewrite bind_ok; [|reflexivity].
  erewrite bind_ok; [|by apply (get_user_ready _ _ d)].
  rewrite _get_result, Hc. cbv beta iota.
  erewrite bind_ok; [|reflexivity].
  by apply (reply_text_ok _ msg).
Qed.

Lemma _tg_start_ready upd u msg d w :
  effective_user upd = Some u → message upd = Some msg →
  ready d w → net_faults w = [] →
  _tg_start FREE_MESSAGES_PER_DAY upd w =
  (Ok tt,
   deliver (start_text FREE_MESSAGES_PER_DAY)
     (set_file_db (Some (_get (tg_id u) (tg_username u) (today w) d).2) w)).
Proof.
  intros Hu Hm Hr Hn. unfold _tg_start. apply try_except_ok. rewrite Hu.
  erewrite bind_ok; [|reflexivity].
  erewrite bind_ok; [|by apply (get_user_ready _ _ d)].
  by apply (reply_text_ok _ msg).
Qed.
End CommandFacts.

(** X10. In file mode with the tables in place, no fault pending and the
    network up, [/stats] of a user whose counter reads [used] sends one
    line, the decimal of [max(0, FREE_MESSAGES_PER_DAY - used)], a slash and
    the decimal of the limit. The number shown is never negative; it is the
    limit minus [used] while [used] is at most the limit. Asking costs
    nothing: the counter read afterwards is the same and no turn is
    touched. *)
Theorem stats_reports_what_is_left (FREE_MESSAGES_PER_DAY : Z) (upd : Update)
    (u : TgUser) (msg : TgMessage) (d : Database) (w : World) (used : Z) :
  effective_user upd = Some u →
  message upd = Some msg →
  ready d w →
  net_faults w = [] →
  counter_read (tg_id u) (today w) d = Some used →
  ∃ left d1,
    _tg_stats FREE_MESSAGES_PER_DAY upd w =
      (Ok tt,
       deliver ("Сегодня осталось сообщений: " +:+ pretty left +:+ "/" +:+
                pretty FREE_MESSAGES_PER_DAY)
         (set_file_db (Some d1) w)) ∧
    0 ≤ left ∧
    (used ≤ FREE_MESSAGES_PER_DAY → left = FREE_MESSAGES_PER_DAY - used) ∧
    (FREE_MESSAGES_PER_DAY ≤ used → left = 0) ∧
    counter_read (tg_id u) (today w) d1 = Some used ∧
    convo d1 = convo d.
Proof.
  intros Hu Hm Hr Hn Hc.
  exists (Z.max 0 (FREE_MESSAGES_PER_DAY - used)),
         (_get (tg_id u) (tg_username u) (today w) d).2.
  split; [by apply (_tg_stats_ready _ upd u msg d w used)|].
  split; [lia|]. split; [lia|]. split; [lia|].
  split; [by rewrite counter_read_after_get|apply _get_convo].
Qed.

(** An instance: user 42 of the sample data has used 3 of 15. *)
Lemma stats_reports_what_is_left_witness :
  (ready sample_db sample_world ∧ net_faults sample_world = []) ∧
  ∃ d1,
    _tg_stats 15 (text_update 42 (Some "tester") "/stats") sample_world =
      (Ok tt, deliver "Сегодня осталось сообщений: 12/15"
                (set_file_db (Some d1) sample_world)) ∧
    counter_read 42 day1 d1 = Some 3.
Proof.
  split; [split; [exact sample_world_ready|reflexivity]|].
  destruct (stats_reports_what_is_left 15
              (text_update 42 (Some "tester") "/stats")
              (mkTgUser 42 (Some "tester")) (mkTgMessage (Some "/stats"))
              sample_db sample_world 3 eq_refl eq_refl sample_world_ready
              eq_refl eq_refl) as (left & d1 & Hrun & _ & Hleft & _ & Hc & _).
  exists d1. split; [|exact Hc].
  rewrite Hrun, (Hleft ltac:(lia)). reflexivity.
Defined.

(** X11. In file mode with the tables in place, no fault pending and the
    network up, [/start] sends the greeting, which names the daily limit in
    decimal, and makes sure the user has a row dated today: a user without
    one gets it, under the Telegram name and with counter 0. It costs
    nothing: the counter read for the user and every turn stay as they
    were. *)
Theorem start_registers_and_greets (FREE_MESSAGES_PER_DAY : Z) (upd : Update)
    (u : TgUser) (msg : TgMessage) (d : Database) (w : World) :
  effective_user upd = Some u →
  message upd = Some msg →
  ready d w →
  net_faults w = [] →
  ∃ d1 row,
    _tg_start FREE_MESSAGES_PER_DAY upd w =
      (Ok tt, deliver (start_text FREE_MESSAGES_PER_DAY)
                (set_file_db (Some d1) w)) ∧
    contains (pretty FREE_MESSAGES_PER_DAY) (start_text FREE_MESSAGES_PER_DAY) ∧
    users d1 !! tg_id u = Some row ∧
    last_reset row = Some (today w) ∧
    messages_today row = counter_read (tg_id u) (today w) d ∧
    (users d !! tg_id u = None →
     row = mkUserRow (tg_username u) (Some 0) (Some (today w))) ∧
    counter_read (tg_id u) (today w) d1 = counter_read (tg_id u) (today w) d ∧
    convo d1 = convo d.
Proof.
  intros Hu Hm Hr Hn.
  destruct (_get_row (tg_id u) (tg_username u) (today w) d)
    as (row & Hrow & Hc & Hd).
  exists (_get (tg_id u) (tg_username u) (today w) d).2, row.
  split; [by apply (_tg_start_ready _ upd u msg d w)|].
  split; [unfold start_text; by eexists _, _|].
  split; [done|]. split; [done|]. split; [done|].
  split; [|split; [apply counter_read_after_get|apply _get_convo]].
  intros Hnone. revert Hrow. unfold _get. rewrite Hnone. cbn [snd].
  rewrite users_set_users, lookup_insert_eq. by intros [= <-].
Qed.

(** An instance: user 99 is new to the sample data. *)
Lemma start_registers_and_greets_witness :
  (ready sample_db sample_world ∧ net_faults sample_world = []) ∧
  ∃ d1,
    _tg_start 15 (text_update 99 (Some "newcomer") "/start") sample_world =
      (Ok tt, deliver (start_text 15) (set_file_db (Some d1) sample_world)) ∧
    users d1 !! 99 = Some (mkUserRow (Some "newcomer") (Some 0) (Some day1)).
Proof.
  split; [split; [exact sample_world_ready|reflexivity]|].
  destruct (start_registers_and_greets 15
              (text_update 99 (Some "newcomer") "/start")
              (mkTgUser 99 (Some "newcomer")) (mkTgMessage (Some "/start"))
              sample_db sample_world eq_refl eq_refl sample_world_ready eq_refl)
    as (d1 & row & Hrun & _ & Hrow & _ & _ & Hnew & _).
  exists d1. split; [exact Hrun|]. rewrite (Hnew eq_refl) in Hrow. exact Hrow.
Defined.

(** Storage calls write nothing to the user. *)
Lemma transaction_outbox {T}
    (stmts : option Database → outcome T * option Database) w :
  outbox (transaction stmts w).2 = outbox w.
Proof.
  unfold transaction.
  destruct (db_faults w) as [|[e|] rest]; simpl; try done;
    destruct (DB_URI w); simpl; try done;
    by destruct (stmts (file_db w)).
Qed.

Lemma db_try_outbox {T}
    (stmts : World → option Database → outcome T * option Database) w :
  outbox (_db_try (λ w, transaction (stmts w) w) w).2 = outbox w.
Proof.
  unfold _db_try.
  pose proof (transaction_outbox (stmts w) w) as Hout.
  destruct (transaction (stmts w) w) as [[v|e] w1]; simpl in *; [done|].
  destruct (io_class e); [|done].
  destruct (DB_URI w1); simpl; [done|].
  by rewrite transaction_outbox.
Qed.

(** X12. Whatever the state of the process: when [get_user] raises inside
    [/start] or [/stats], the handler writes one log record and sends
    nothing at all, no apology either, unlike [_tg_text] and [_tg_reset]. *)
Theorem command_failures_are_silent (FREE_MESSAGES_PER_DAY : Z) (upd : Update)
    (u : TgUser) (w w1 : World) (e : exn) :
  effective_user upd = Some u →
  get_user (tg_id u) (tg_username u) w = (Raise e, w1) →
  _tg_start FREE_MESSAGES_PER_DAY upd w =
    (Ok tt, write_log (LogException "_tg_start error: %s" e) w1) ∧
  _tg_stats FREE_MESSAGES_PER_DAY upd w =
    (Ok tt, write_log (LogException "_tg_stats error: %s" e) w1) ∧
  outbox w1 = outbox w.
Proof.
  intros Hu Hget. split; [|split].
  - unfold _tg_start. erewrite try_except_raise; [done|].
    rewrite Hu. erewrite bind_ok; [|reflexivity]. by apply bind_raise.
  - unfold _tg_stats. erewrite try_except_raise; [done|].
    rewrite Hu. erewrite bind_ok; [|reflexivity]. by apply bind_raise.
  - pose proof (db_try_outbox
                  (λ w, on_tables (_get (tg_id u) (tg_username u) (today w))) w)
      as Hout.
    cbv beta in Hout. unfold get_user in Hget. by rewrite Hget in Hout.
Qed.

(** An instance: the sample process in memory mode. *)
Lemma command_failures_are_silent_witness :
  get_user 42 (Some "tester") (set_backend "mem" true sample_world)
    = (Raise OperationalError, set_backend "mem" true sample_world) ∧
  ∃ w', _tg_stats 15 (text_update 42 (Some "tester") "/stats")
          (set_backend "mem" true sample_world) = (Ok tt, w') ∧
        outbox w' = [].
Proof.
  split; [reflexivity|].
  destruct (command_failures_are_silent 15
              (text_update 42 (Some "tester") "/stats")
              (mkTgUser 42 (Some "tester"))
              (set_backend "mem" true sample_world)
              (set_backend "mem" true sample_world) OperationalError
              eq_refl eq_refl) as (_ & Hstats & _).
  eexists. split; [exact Hstats|reflexivity].
Defined.

(** ** The stub reply and the prompt of a served message *)

Lemma filter_none {A} (P : A → Prop) `{!∀ x, Decision (P x)} (l : list A) :
  Forall (λ x, ¬ P x) l → filter P l = [].
Proof.
  induction 1 as [|x l' Hx _ IH]; [done|]. by rewrite filter_cons_False.
Qed.

(** X13. Without a provider, [_openai_reply] never raises and changes
    nothing; its reply is the stub head followed by the content of the last
    message of the list whose role is [user], whatever comes after it, and
    the stub head alone when no message has that role. *)
Theorem stub_echoes_last_user_message (str_strip : string → string)
    (pre post : list ChatMessage) (m : ChatMessage) (w : World) :
  msg_role m = "user" →
  Forall (λ m', msg_role m' ≠ "user") post →
  _openai_reply None str_strip (pre ++ m :: post) w
    = (Ok (stub_prefix +:+ msg_content m), w) ∧
  _openai_reply None str_strip post w = (Ok stub_prefix, w).
Proof.
  intros Hm Hpost.
  assert (filter (λ m', msg_role m' = "user") (reverse post) = []) as Hnone.
  { by rewrite filter_reverse, filter_none. }
  unfold _openai_reply. split.
  - rewrite reverse_app, reverse_cons, <-app_assoc, filter_app, Hnone.
    simpl. by rewrite filter_cons_True.
  - rewrite Hnone. simpl. by rewrite string_app_nil_r.
Qed.

(** An instance: the newest message of the user wins, a later assistant
    message notwithstanding. *)
Lemma stub_echoes_last_user_message_witness :
  (msg_role (mkMessage "user" "second") = "user" ∧
   Forall (λ m', msg_role m' ≠ "user") [mkMessage "assistant" "noted"]) ∧
  _openai_reply None py_strip
    [mkMessage "system" "be kind"; mkMessage "user" "first";
     mkMessage "user" "second"; mkMessage "assistant" "noted"] sample_world
  = (Ok (stub_prefix +:+ "second"), sample_world).
Proof.
  split; [split; [done|by repeat constructor]|].
  exact (proj1 (stub_echoes_last_user_message py_strip
                  [mkMessage "system" "be kind"; mkMessage "user" "first"]
                  [mkMessage "assistant" "noted"] (mkMessage "user" "second")
                  sample_world eq_refl ltac:(by repeat constructor))).
Defined.

Section ExchangeDetail.
Context (FREE_MESSAGES_PER_DAY HISTORY_TURNS : Z)
        (provider : option (list ChatMessage → completion))
        (str_strip : string → string).

(** The four steps of a served message, with what the provider is given
    and what the history holds afterwards. *)
Lemma exchange_detail {T} (k : string → M T) uid user_text name d w :
  wf_db d → ready d w →
  ∃ reply w0 w_r d' w',
    _openai_reply provider str_strip
      (prompt_in_order
         (lastn (cap HISTORY_TURNS) ((_hist uid d).1 ++ [(RoleUser, user_text)]))
         user_text name) w0 = (Ok reply, w_r) ∧
    (add_msg HISTORY_TURNS uid RoleUser user_text;;
     reply ← generate_reply provider str_strip uid user_text name;
     add_msg HISTORY_TURNS uid RoleAssistant reply;;
     inc_user_counter uid;;
     k reply) w = k reply w' ∧
    ready d' w' ∧ same_env w w' ∧ wf_db d' ∧
    users d' = alter bump uid (users d) ∧
    (_hist uid d').1 =
      lastn (cap HISTORY_TURNS)
        ((_hist uid d).1 ++ [(RoleUser, user_text); (RoleAssistant, reply)]).
Proof.
  intros Hwf Hr. unfold mbind, M_bind, bind.
  rewrite (add_msg_ready _ _ _ _ d) by done.
  set (d1 := (_add HISTORY_TURNS uid RoleUser user_text d).2).
  assert (wf_db d1) as Hwf1 by by apply _add_wf.
  assert (ready d1 (set_file_db (Some d1) w)) as Hr1
    by by apply (ready_set_file_db d).
  rewrite (generate_reply_after_history _ _ _ _ _ _ _ _
             (get_history_ready uid d1 _ Hr1)).
  rewrite set_file_db_twice.
  assert ((_hist uid d1).1 =
          lastn (cap HISTORY_TURNS) ((_hist uid d).1 ++ [(RoleUser, user_text)]))
    as Hh1 by by apply _hist_add_same.
  rewrite Hh1.
  destruct (_openai_reply_same_env provider str_strip
              (prompt_in_order
                 (lastn (cap HISTORY_TURNS)
                    ((_hist uid d).1 ++ [(RoleUser, user_text)]))
                 user_text name)
              (set_file_db (Some d1) w)) as (reply & w2 & Hreply & Henv & Hfile).
  rewrite Hreply.
  assert (ready d1 w2) as Hr2 by by eapply ready_same_env.
  rewrite (add_msg_ready _ _ _ _ d1) by done.
  set (d2 := (_add HISTORY_TURNS uid RoleAssistant reply d1).2).
  assert (ready d2 (set_file_db (Some d2) w2)) as Hr3
    by by apply (ready_set_file_db d1).
  rewrite (inc_user_counter_ready _ d2) by done.
  rewrite set_file_db_twice.
  exists reply, (set_file_db (Some d1) w), w2, (_inc uid d2).2,
         (set_file_db (Some (_inc uid d2).2) w2).
  split; [exact Hreply|]. split; [done|].
  split; [by apply (ready_set_file_db d1)|].
  split; [|split; [|split; [done|]]].
  - eapply same_env_trans; [apply (same_env_set_file_db (Some d1))|].
    eapply same_env_trans; [exact Henv|apply same_env_set_file_db].
  - change (wf_db d2). by apply _add_wf.
  - change ((_hist uid d2).1 =
            lastn (cap HISTORY_TURNS)
              ((_hist uid d).1 ++
               [(RoleUser, user_text); (RoleAssistant, reply)])).
    unfold d2. rewrite _hist_add_same by done.
    rewrite Hh1, lastn_app_lastn. by rewrite <-app_assoc.
Qed.
End ExchangeDetail.

Lemma prompt_ends_with_new_message_twice cap_n old user_text name :
  (1 ≤ cap_n)%nat →
  ∃ front,
    prompt_in_order (lastn cap_n (old ++ [(RoleUser, user_text)])) user_text name
    = front ++ [mkMessage "user" user_text; mkMessage "user" user_text].
Proof.
  intros Hcap.
  assert (∃ seen, lastn cap_n (old ++ [(RoleUser, user_text)])
                  = seen ++ [(RoleUser, user_text)]) as [seen ->].
  { unfold lastn. rewrite length_app. simpl.
    exists (drop (length old + 1 - cap_n) old).
    rewrite drop_app. f_equal.
    replace (length old + 1 - cap_n - length old)%nat with 0%nat by lia.
    done. }
  unfold prompt_in_order. rewrite fmap_app.
  exists ([mkMessage "system" SYSTEM_PROMPT] ++ name_note name ++
          ((λ turn, mkMessage (role_name turn.1) turn.2) <$> seen)).
  by rewrite <-!app_assoc.
Qed.



(** ** The console loops *)

(** X15. In [run_local_session] a blank line (one that strips to nothing)
    does nothing at all, and the first line that strips to [/quit], [:q]
    or [exit] ends the loop: the lines after it are never read, whatever
    they are and whatever the state of the process. *)
Theorem script_skips_blank_and_stops_at_quit
    (FREE_MESSAGES_PER_DAY HISTORY_TURNS : Z)
    (provider : option (list ChatMessage → completion))
    (str_strip : string → string)
    (pre mid post : list string) (blank quit : string) (w : World) :
  str_strip blank = "" →
  str_strip quit ∈ ["/quit"; ":q"; "exit"] →
  session_loop FREE_MESSAGES_PER_DAY HISTORY_TURNS provider str_strip
    (pre ++ blank :: mid ++ quit :: post) w
  = session_loop FREE_MESSAGES_PER_DAY HISTORY_TURNS provider str_strip
      (pre ++ mid) w.
Proof.
  intros Hblank Hquit.
  assert (∀ l w, session_loop FREE_MESSAGES_PER_DAY HISTORY_TURNS provider
                   str_strip (l ++ quit :: post) w
                 = session_loop FREE_MESSAGES_PER_DAY HISTORY_TURNS provider
                     str_strip l w) as Hstop.
  { intros l. induction l as [|a l IH]; intros w0.
    - simpl. unfold local_turn. cbv zeta.
      rewrite decide_False, decide_True; [done|done|].
      intros Heq. rewrite Heq, !elem_of_cons, elem_of_nil in Hquit.
      by destruct Hquit as [?|[?|[?|[]]]].
    - simpl. unfold mbind, M_bind, bind.
      destruct (local_turn _ _ _ _ a w0) as [[[]|e] w1]; [apply IH|done|done]. }
  revert w. induction pre as [|a pre IH]; intros w.
  - simpl. unfold local_turn at 1. cbv zeta.
    rewrite decide_True by done.
    unfold mbind, M_bind, bind, ret. apply Hstop.
  - simpl. unfold mbind, M_bind, bind.
    destruct (local_turn _ _ _ _ a w) as [[[]|e] w1]; [apply IH|done|done].
Qed.

(** An instance: a script with an empty line and text after [exit]. *)
Lemma script_skips_blank_and_stops_at_quit_witness :
  (py_strip "  " = "" ∧ py_strip " exit" ∈ ["/quit"; ":q"; "exit"]) ∧
  session_loop 15 16 None py_strip ["hi"; "  "; "more"; " exit"; "late"]
    sample_world
  = session_loop 15 16 None py_strip ["hi"; "more"] sample_world.
Proof.
  split; [split; [reflexivity|]|].
  - change (py_strip " exit") with "exit". rewrite !elem_of_cons. auto.
  - apply (script_skips_blank_and_stops_at_quit 15 16 None py_strip
             ["hi"] ["more"] ["late"] "  " " exit" sample_world).
    + reflexivity.
    + change (py_strip " exit") with "exit". rewrite !elem_of_cons. auto.
Defined.

Section TerminalFacts.
Context (FREE_MESSAGES_PER_DAY HISTORY_TURNS : Z)
        (provider : option (list ChatMessage → completion))
        (str_strip : string → string).

(** A line that is neither a quit word nor [/reset], typed at the terminal
    by a user under the limit. *)
Lemma interactive_turn_served line d w c :
  str_strip line ∉ ["/quit"; ":q"; "exit"] → str_strip line ≠ "/reset" →
  wf_db d → ready d w →
  counter_read fake_user_id (today w) d = Some c →
  c < FREE_MESSAGES_PER_DAY →
  ∃ reply d' w',
    interactive_turn FREE_MESSAGES_PER_DAY HISTORY_TURNS provider str_strip
      line w = (Ok Continue, w') ∧
    ready d' w' ∧ wf_db d' ∧ today w' = today w ∧
    outbox w' = outbox w ++ ["lana> " +:+ reply] ∧
    counter_read fake_user_id (today w) d' = Some (c + 1) ∧
    (_hist fake_user_id d').1 =
      lastn (cap HISTORY_TURNS)
        ((_hist fake_user_id d).1 ++
         [(RoleUser, str_strip line); (RoleAssistant, reply)]).
Proof.
  intros Hquit Hreset Hwf Hr Hc Hlt.
  set (d1 := (_get fake_user_id (Some fake_username) (today w) d).2).
  assert (wf_db d1) as Hwf1 by (unfold wf_db, d1; by rewrite _get_convo).
  assert ((_hist fake_user_id d1).1 = (_hist fake_user_id d).1) as Hsame
    by (unfold _hist, d1; by rewrite _get_convo).
  destruct (exchange_detail HISTORY_TURNS provider str_strip
              (λ reply, print ("lana> " +:+ reply);; ret Continue)
              fake_user_id (str_strip line) (Some fake_username)
              d1 (set_file_db (Some d1) w) Hwf1)
    as (reply & _ & _ & d' & w' & _ & Hex & Hr' & Henv & Hwf' & Husers & Hhist);
    [by apply (ready_set_file_db d)|].
  destruct Henv as (_ & _ & Hday & _ & _ & Hout).
  exists reply, d', (deliver ("lana> " +:+ reply) w').
  split; [|split; [by apply ready_deliver|split; [done|split; [|split; [|split]]]]].
  - unfold interactive_turn. cbv zeta. rewrite !decide_False by done.
    erewrite bind_ok; [|by apply (get_user_ready _ _ d)].
    rewrite _get_result, Hc. cbv beta iota.
    erewrite bind_ok; [|reflexivity].
    rewrite bool_decide_eq_false_2 by lia.
    fold d1. by rewrite Hex.
  - simpl. by rewrite Hday.
  - simpl. by rewrite Hout.
  - by apply (counter_read_after_inc _ (Some fake_username) _ d).
  - by rewrite Hhist, Hsame.
Qed.

Lemma local_turn_is_interactive_turn raw w :
  str_strip raw ≠ "" →
  local_turn FREE_MESSAGES_PER_DAY HISTORY_TURNS provider str_strip raw w
  = interactive_turn FREE_MESSAGES_PER_DAY HISTORY_TURNS provider str_strip
      raw w.
Proof.
  intros Hne. unfold local_turn, interactive_turn. cbv zeta.
  by rewrite (decide_False (P := str_strip raw = "")).
Qed.

Lemma session_loop_continue raw rest w w1 :
  local_turn FREE_MESSAGES_PER_DAY HISTORY_TURNS provider str_strip raw w
    = (Ok Continue, w1) →
  session_loop FREE_MESSAGES_PER_DAY HISTORY_TURNS provider str_strip
    (raw :: rest) w
  = session_loop FREE_MESSAGES_PER_DAY HISTORY_TURNS provider str_strip rest w1.
Proof.
  intros Hturn. cbn [session_loop]. unfold mbind, M_bind, bind.
  by rewrite Hturn.
Qed.

Lemma session_loop_quit raw rest w :
  str_strip raw ∈ ["/quit"; ":q"; "exit"] →
  session_loop FREE_MESSAGES_PER_DAY HISTORY_TURNS provider str_strip
    (raw :: rest) w = (Ok tt, w).
Proof.
  intros Hquit. cbn [session_loop]. unfold local_turn. cbv zeta.
  rewrite decide_False, decide_True; [done|done|].
  intros Heq. rewrite Heq, !elem_of_cons, elem_of_nil in Hquit.
  by destruct Hquit as [?|[?|[?|[]]]].
Qed.

(** A chat line of the script, for a user under the limit. *)
Lemma local_turn_detail raw d w c :
  chat_line str_strip raw → wf_db d → ready d w →
  counter_read fake_user_id (today w) d = Some c →
  c < FREE_MESSAGES_PER_DAY →
  ∃ reply d' w',
    local_turn FREE_MESSAGES_PER_DAY HISTORY_TURNS provider str_strip raw w
      = (Ok Continue, w') ∧
    ready d' w' ∧ wf_db d' ∧ today w' = today w ∧
    outbox w' = outbox w ++ ["lana> " +:+ reply] ∧
    counter_read fake_user_id (today w) d' = Some (c + 1) ∧
    (_hist fake_user_id d').1 =
      lastn (cap HISTORY_TURNS)
        ((_hist fake_user_id d).1 ++
         [(RoleUser, str_strip raw); (RoleAssistant, reply)]).
Proof.
  intros (Hne & Hquit & Hreset) Hwf Hr Hc Hlt.
  rewrite local_turn_is_interactive_turn by done.
  by apply interactive_turn_served.
Qed.

Lemma _do_reset_wf uid d : wf_db d → wf_db (_do_reset uid d).2.
Proof. intros Hwf. unfold wf_db, _do_reset. simpl. by apply sorted_filter. Qed.

Lemma counter_read_fresh uid date d :
  users d !! uid = None → counter_read uid date d = Some 0.
Proof. intros Hrow. unfold counter_read, _get. by rewrite Hrow. Qed.

(** The transcript of [run_local_cli], played on a file that has no tables
    yet. *)
Lemma demo_session w :
  DB_URI w = false → db_faults w = [] → file_db w = None →
  Forall (λ line, str_strip line = line) demo →
  3 ≤ FREE_MESSAGES_PER_DAY → 1 ≤ HISTORY_TURNS →
  ∃ r1 r2 r3 d' w',
    run_local_session FREE_MESSAGES_PER_DAY HISTORY_TURNS provider str_strip
      demo w = (Ok tt, w') ∧
    ready d' w' ∧
    outbox w' = outbox w ++
      ["lana> " +:+ r1; "lana> " +:+ r2; "lana> Ок, начнём сначала ✨";
       "lana> " +:+ r3] ∧
    counter_read fake_user_id (today w) d' = Some 3 ∧
    (_hist fake_user_id d').1 =
      [(RoleUser, "Давай начнём заново"); (RoleAssistant, r3)].
Proof.
  intros Huri Hf Hnone Hstrip Hfree Hturns.
  apply Forall_cons in Hstrip as [Hs1 Hstrip].
  apply Forall_cons in Hstrip as [Hs2 Hstrip].
  apply Forall_cons in Hstrip as [Hs3 Hstrip].
  apply Forall_cons in Hstrip as [Hs4 Hstrip].
  apply Forall_cons in Hstrip as [Hs5 _].
  assert (∀ line, str_strip line = line → line ≠ "" →
            line ∉ ["/quit"; ":q"; "exit"] → line ≠ "/reset" →
            chat_line str_strip line) as Hchat
    by (intros line Hl ???; unfold chat_line; by rewrite Hl).
  set (w0 := set_file_db (Some empty_db) w).
  assert (ready empty_db w0) as Hr0 by done.
  set (d1 := (_get fake_user_id (Some fake_username) (today w0) empty_db).2).
  set (w1 := set_file_db (Some d1) w0).
  assert (ready d1 w1) as Hr1 by by apply (ready_set_file_db empty_db).
  assert (wf_db d1) as Hwf1
    by (unfold wf_db, d1; rewrite _get_convo; constructor).
  assert (counter_read fake_user_id (today w1) d1 = Some 0) as Hc1.
  { unfold d1. change (today w1) with (today w0).
    rewrite counter_read_after_get. by apply counter_read_fresh. }
  destruct (local_turn_detail "Привет, Лана!" d1 w1 0)
    as (r1 & d2 & w2 & Hturn1 & Hr2 & Hwf2 & Hday2 & Hout2 & Hc2 & _);
    [apply Hchat; [done|done| |done]|done|done|done|lia|].
  { rewrite !elem_of_cons, elem_of_nil. by intros [?|[?|[?|[]]]]. }
  rewrite <-Hday2 in Hc2.
  destruct (local_turn_detail "Как твои дела?" d2 w2 (0 + 1))
    as (r2 & d3 & w3 & Hturn2 & Hr3 & Hwf3 & Hday3 & Hout3 & Hc3 & _);
    [apply Hchat; [done|done| |done]|done|done|done|lia|].
  { rewrite !elem_of_cons, elem_of_nil. by intros [?|[?|[?|[]]]]. }
  rewrite <-Hday3 in Hc3.
  pose proof (local_turn_reset FREE_MESSAGES_PER_DAY HISTORY_TURNS provider
                str_strip "/reset" d3 w3 Hs3 Hr3) as Hturn3.
  set (d4 := (_do_reset fake_user_id d3).2) in Hturn3.
  set (w4 := deliver "lana> Ок, начнём сначала ✨" (set_file_db (Some d4) w3))
    in Hturn3.
  assert (ready d4 w4) as Hr4
    by (apply ready_deliver; by apply (ready_set_file_db d3)).
  assert (wf_db d4) as Hwf4 by by apply _do_reset_wf.
  assert (counter_read fake_user_id (today w4) d4 = Some (0 + 1 + 1)) as Hc4
    by (rewrite <-Hc3; by apply counter_read_users).
  destruct (local_turn_detail "Давай начнём заново" d4 w4 (0 + 1 + 1))
    as (r3 & d5 & w5 & Hturn4 & Hr5 & Hwf5 & Hday5 & Hout5 & Hc5 & Hhist5);
    [apply Hchat; [done|done| |done]|done|done|done|lia|].
  { rewrite !elem_of_cons, elem_of_nil. by intros [?|[?|[?|[]]]]. }
  exists r1, r2, r3, d5, w5.
  split; [|split; [done|split; [|split]]].
  - unfold run_local_session.
    erewrite bind_ok; [|by apply init_db_file].
    rewrite Hnone. change (default empty_db None) with empty_db. fold w0.
    erewrite bind_ok; [|by apply (get_user_ready _ _ empty_db)].
    fold d1 w1. unfold demo.
    rewrite (session_loop_continue _ _ _ _ Hturn1).
    rewrite (session_loop_continue _ _ _ _ Hturn2).
    rewrite (session_loop_continue _ _ _ _ Hturn3).
    rewrite (session_loop_continue _ _ _ _ Hturn4).
    apply session_loop_quit. rewrite Hs5, !elem_of_cons. auto.
  - rewrite Hout5. unfold w4. simpl. rewrite Hout3, Hout2. simpl.
    by rewrite <-!app_assoc.
  - replace (today w) with (today w4)
      by (unfold w4; simpl; by rewrite Hday3, Hday2).
    rewrite Hc5. f_equal.
  - rewrite Hhist5, Hs4. unfold d4. rewrite _hist_after_reset.
    apply lastn_all. unfold cap. simpl. lia.
Qed.
End TerminalFacts.





(** ** A message whose reply cannot be delivered *)

(** The two sends of [_tg_text] when the first one fails: the reply is
    lost, the apology goes out unless the network fails again. *)
Lemma reply_then_apology upd msg reply e rest w :
  message upd = Some msg →
  net_faults w = Some e :: rest →
  ∃ w',
    try_except (reply_text upd reply)
      (λ e w,
         try_except (reply_text upd text_apology) (λ _, ret tt)
           (write_log (LogException "_tg_text error: %s" e) w)) w
    = (Ok tt, w') ∧
    file_db w' = file_db w ∧ DB_URI w' = DB_URI w ∧
    db_faults w' = db_faults w ∧ today w' = today w ∧
    outbox w' = outbox w ++
      match rest with Some _ :: _ => [] | _ => [text_apology] end.
Proof.
  intros Hm Hn. case_world w. subst netf.
  unfold try_except, reply_text. rewrite Hm.
  unfold mbind, M_bind, bind, attr, ret, send_message. simpl.
  destruct rest as [|[e1|] rest]; simpl; eexists; repeat split.
  by rewrite app_nil_r.
Qed.



(** ** A storage failure in the middle of an exchange *)

Lemma scheduled_next d d' x f w :
  scheduled d (x :: f) w →
  scheduled d' f (set_file_db (Some d') (set_db_faults f w)).
Proof. by intros (? & ? & ?). Qed.

Lemma scheduled_same_env d f w w' :
  scheduled d f w → same_env w w' → file_db w' = file_db w → scheduled d f w'.
Proof. intros (?&?&?) (?&?&?&?&?&?) ?. repeat split; congruence. Qed.

Lemma db_try_pass {T} (stmt : World → Database → T * Database) d f w :
  scheduled d (None :: f) w →
  _db_try (λ w, transaction (on_tables (stmt w)) w) w =
  (Ok (stmt w d).1,
   set_file_db (Some (stmt w d).2) (set_db_faults f w)).
Proof.
  intros (Huri & Hdb & Hf). case_world w. subst.
  unfold _db_try, transaction, on_tables. simpl. by destruct (stmt _ d).
Qed.

Lemma db_try_fault {T} (stmt : World → Database → T * Database) d e w :
  scheduled d [Some e] w → io_class e = true →
  ∃ w',
    _db_try (λ w, transaction (on_tables (stmt w)) w) w
      = (Raise OperationalError, w') ∧
    DB_URI w' = true ∧ file_db w' = Some d ∧ db_faults w' = [] ∧
    today w' = today w ∧ net_faults w' = net_faults w ∧ outbox w' = outbox w.
Proof.
  intros (Huri & Hdb & Hf) Hio. case_world w. subst.
  unfold _db_try, transaction, on_tables. simpl. rewrite Hio. simpl.
  eexists. by repeat split.
Qed.



(** ** A session at the terminal *)

Section TerminalSession.
Context (FREE_MESSAGES_PER_DAY HISTORY_TURNS : Z)
        (provider : option (list ChatMessage → completion))
        (str_strip : string → string).

Lemma interactive_loop_served e post lines : ∀ c d w,
  e = EOFError ∨ e = KeyboardInterrupt ∨ e = OSError →
  Forall (λ line, (str_strip line ∉ ["/quit"; ":q"; "exit"]) ∧
                  str_strip line ≠ "/reset") lines →
  wf_db d → ready d w →
  counter_read fake_user_id (today w) d = Some c →
  c + Z.of_nat (length lines) ≤ FREE_MESSAGES_PER_DAY →
  ∃ replies d' w',
    interactive_loop FREE_MESSAGES_PER_DAY HISTORY_TURNS provider str_strip
      ((Ok <$> lines) ++ Raise e :: post) w = (Ok tt, w') ∧
    ready d' w' ∧ length replies = length lines ∧
    outbox w' = outbox w ++
      (replies ≫= (λ reply, ["you> "; "lana> " +:+ reply])) ++ ["you> "; ""] ∧
    counter_read fake_user_id (today w) d' = Some (c + Z.of_nat (length lines)).
Proof.
  induction lines as [|line lines IH]; intros c d w He Hlines Hwf Hr Hc Hle.
  - exists [], d, (deliver "" (deliver "you> " w)).
    split; [|split; [by do 2 apply ready_deliver|split; [done|split]]].
    + cbn [fmap list_fmap app interactive_loop].
      erewrite bind_ok; [|reflexivity]. by rewrite decide_True.
    + simpl. by rewrite <-app_assoc.
    + rewrite Hc. f_equal. simpl. lia.
  - apply Forall_cons in Hlines as [[Hquit Hreset] Hlines].
    rewrite length_cons in Hle.
    destruct (interactive_turn_served FREE_MESSAGES_PER_DAY HISTORY_TURNS
                provider str_strip line d (deliver "you> " w) c)
      as (reply & d1 & w1 & Hturn & Hr1 & Hwf1 & Hday1 & Hout1 & Hc1 & _);
      [done|done|done|by apply ready_deliver|done|lia|].
    change (today (deliver "you> " w)) with (today w) in Hday1, Hc1.
    destruct (IH (c + 1) d1 w1 He Hlines Hwf1 Hr1)
      as (replies & d' & w' & Hrun & Hr' & Hlen & Hout & Hc');
      [by rewrite Hday1|lia|].
    exists (reply :: replies), d', w'.
    split; [|split; [done|split; [by rewrite !length_cons, Hlen|split]]].
    + rewrite fmap_cons, <-app_comm_cons. cbn [interactive_loop].
      erewrite bind_ok; [|reflexivity].
      erewrite bind_ok; [|exact Hturn]. exact Hrun.
    + rewrite Hout, Hout1. simpl. by rewrite <-!app_assoc.
    + rewrite Hday1 in Hc'. rewrite Hc', length_cons. f_equal. lia.
Qed.
End TerminalSession.



(** ** What [/stats] promises *)


